(** * AurumFox backend: staking reward accrual and DAO voting

    A shallow embedding of [backend/routes/staking.js], [backend/routes/dao.js]
    and of the two Mongoose schemas they persist through
    ([backend/models/StakingUser.js], [backend/models/DaoProposal.js]), with
    the address display and the reward simulation of the page ([script.js]).

    Modelling conventions.
    - A JavaScript [Number] that holds an amount is an exact rational ([Qc],
      canonical, so that equality of numbers is Leibniz equality); the
      rounding of IEEE doubles is not modelled. Vote counters are integers.
    - A [Date] is its millisecond timestamp, a [Z].
    - A string is a sequence of 8-bit characters; lengths and [trim] agree
      with JavaScript's on ASCII text.
    - [Date.now()], [new Date()] and the generation of a document [_id] are
      effects: every call consumes the next reading of a stream held in the
      [World]. Nothing forces two readings to agree or to be ordered; where a
      statement needs it, it says so.
    - A handler runs in the monad [Js] (state plus exceptions). [await] is a
      sequencing point; the store operations [findOne], [findById] and [save]
      are the only places where two requests can interleave.
    - [save] runs the schema validators of the document, as Mongoose does
      before writing, and throws a [ValidationError] when one fails. For a
      proposal that was loaded, what it writes is the changes the handler
      made to it, applied to what the collection holds by then. The
      [createdAt]/[updatedAt] stamps that [timestamps: true] adds are not
      modelled: no handler below reads them.
    - [req.body] fields are strings, a missing field being the empty string
      (both are falsy); [amount] is a number.
    - What comes from libraries outside the repository, [new PublicKey(s)]
      of @solana/web3.js, [mongoose.Types.ObjectId.isValid] and the cast of
      a string to an ObjectId, are parameters ([Externals]). *)

From Stdlib Require Import ZArith QArith Qcanon Qround Qabs Lia Lqa Ascii.
From stdpp Require Import base numbers strings list gmap pretty.

Local Open Scope Z_scope.
Local Open Scope Qc_scope.

(** ** JavaScript primitives *)

(** Whitespace removed by [String.prototype.trim], restricted to ASCII. *)
Definition isWhiteSpace (a : ascii) : bool :=
  let n := nat_of_ascii a in
  ((9 <=? n)%nat && (n <=? 13)%nat) || (n =? 32)%nat.

Fixpoint trimStart (s : string) : string :=
  match s with
  | String a s' => if isWhiteSpace a then trimStart s' else s
  | EmptyString => EmptyString
  end.

Definition trim (s : string) : string :=
  String.rev (trimStart (String.rev (trimStart s))).

(** Truthiness of a string: only the empty string is falsy. *)
Definition truthy (s : string) : bool :=
  match s with EmptyString => false | _ => true end.

Definition inRange (lo hi a : ascii) : bool :=
  ((nat_of_ascii lo <=? nat_of_ascii a)%nat
   && (nat_of_ascii a <=? nat_of_ascii hi)%nat).

(** The character class [[1-9A-HJ-NP-Za-km-z]]. *)
Definition base58Char (a : ascii) : bool :=
  inRange "1" "9" a || inRange "A" "H" a || inRange "J" "N" a
  || inRange "P" "Z" a || inRange "a" "k" a || inRange "m" "z" a.

Fixpoint allChars (p : ascii → bool) (s : string) : bool :=
  match s with
  | EmptyString => true
  | String a s' => p a && allChars p s'
  end.

(** [/^[1-9A-HJ-NP-Za-km-z]{32,44}$/.test(v)], the format check written in
    the schemas. *)
Definition solanaAddressRegex (v : string) : bool :=
  (32 <=? String.length v)%nat && (String.length v <=? 44)%nat
  && allChars base58Char v.

Fixpoint zeros (n : nat) : string :=
  match n with O => EmptyString | S n' => String "0" (zeros n') end.

Fixpoint takeChars (n : nat) (s : string) : string :=
  match n, s with
  | S n', String a s' => String a (takeChars n' s')
  | _, _ => EmptyString
  end.

Fixpoint dropChars (n : nat) (s : string) : string :=
  match n, s with
  | S n', String _ s' => dropChars n' s'
  | _, _ => s
  end.

(** [x.toFixed(digits)]: the nearest multiple of [10^-digits] (the larger
    one on a tie), printed in decimal with exactly [digits] fraction digits.
    (The exponential form that JavaScript switches to from [1e21] on is not
    modelled.) *)
Definition toFixed (digits : nat) (x : Qc) : string :=
  let scale := inject_Z (10 ^ Z.of_nat digits) in
  let n := Qfloor (Qabs (this x) * scale + (1 # 2))%Q in
  let ds := pretty n in
  let ds := zeros (S digits - String.length ds) +:+ ds in
  let k := (String.length ds - digits)%nat in
  (if bool_decide (x < 0) then "-" else "")
  +:+ takeChars k ds
  +:+ (if (digits =? 0)%nat then "" else "." +:+ dropChars k ds).

(** ** Responses *)

(** An exception thrown by the persistence layer. A validation failure
    lists the failed paths, each with the kind of the validator that failed
    (Mongoose's [err.kind]). *)
Inductive Exn :=
| ValidationError (failures : list (string * string))
| DuplicateKey (path : string)            (* a [unique] index was violated *)
| DocumentNotFound.

(** A message is the text a handler sends, in the pieces the source
    concatenates: text (a number appears as the text [toFixed] prints for
    it, and in no other form), a date printed by its [toString], or the text
    of a caught error ([err.message], whose wording belongs to Mongoose). *)
Inductive Piece :=
| Lit (text : string)
| DateText (t : Z)
| ErrMessage (e : Exn).

Definition Message := list Piece.

(** The double quote, for the messages that contain one. *)
Definition quote : string := String (ascii_of_nat 34) EmptyString.

(** ** Documents and the world *)

(** A document of the [StakingUser] collection, without its
    [walletAddress]: the collection holds it under that address. *)
Record StakingUser := mkStakingUser {
  stakedAmount : Qc;
  rewards : Qc;
  lastClaimed : Z;
  lastStakedOrUnstaked : Z }.

(** The two values the [status] enum admits. *)
Inductive Status := active | completed.

(** A document of the [DaoProposal] collection, without its [_id]. *)
Record DaoProposal := mkDaoProposal {
  title : string;
  description : string;
  creatorWallet : string;
  votesFor : Z;
  votesAgainst : Z;
  voters : list string;
  expiresAt : Z;
  status : Status }.

Global Instance Status_eq_dec : EqDecision Status.
Proof. solve_decision. Defined.

(** A Mongoose document held by a handler: its key, the values of its other
    paths, and whether it was built by [new] (to be inserted) or loaded (to
    be updated). *)
Record StakingDoc := mkStakingDoc {
  stakingIsNew : bool;
  walletAddress : string;
  stakingFields : StakingUser }.

(** A proposal held by a handler remembers the values it was loaded with
    ([None] for a document built by [new]): [save] sends the paths that no
    longer have them. *)
Record ProposalDoc := mkProposalDoc {
  proposalLoaded : option DaoProposal;
  proposalKey : string;
  proposalFields : DaoProposal }.

(** The body handed to [res.json]. *)
Inductive Json :=
| JMessage (message : Message)
| JStaking (staked reward : Qc) (claimed changed : option Z)
| JMessageUser (message : Message) (wallet : string) (user : StakingUser)
| JMessageProposal (message : Message) (id : string) (proposal : DaoProposal)
| JMessageErrors (message : Message) (errors : list Message).

Record Response := mkResponse {
  statusCode : Z;
  body : Json }.

(** What a handler can observe and change: the clock, the generator of
    document ids, and the two collections. [stakingUsers] is indexed by
    [walletAddress], which the schema declares [unique]; [daoProposals] by
    [_id]. *)
Record World := mkWorld {
  clock : nat → Z;
  objectIds : nat → string;
  stakingUsers : gmap string StakingUser;
  daoProposals : gmap string DaoProposal }.

Definition setStakingUsers (m : gmap string StakingUser) (w : World) : World :=
  mkWorld (clock w) (objectIds w) m (daoProposals w).

Definition setDaoProposals (m : gmap string DaoProposal) (w : World) : World :=
  mkWorld (clock w) (objectIds w) (stakingUsers w) m.

(** The world at a moment when every reading of the clock gives [t]. *)
Definition atTime (t : Z) (w : World) : World :=
  mkWorld (λ _, t) (objectIds w) (stakingUsers w) (daoProposals w).

(** ** The handler monad *)

Inductive Outcome (A : Type) :=
| Returned (a : A)
| Thrown (e : Exn).
Arguments Returned {A} a.
Arguments Thrown {A} e.

Definition Js (A : Type) : Type := World → Outcome A * World.

Global Instance Js_ret : MRet Js := λ A a w, (Returned a, w).

Global Instance Js_bind : MBind Js := λ A B k m w,
  match m w with
  | (Returned a, w') => k a w'
  | (Thrown e, w') => (Thrown e, w')
  end.

Global Instance Js_fmap : FMap Js := λ A B f m w,
  match m w with
  | (Returned a, w') => (Returned (f a), w')
  | (Thrown e, w') => (Thrown e, w')
  end.

Definition throw {A : Type} (e : Exn) : Js A := λ w, (Thrown e, w).

(** [try { body } catch (err) { handler(err) }] *)
Definition tryCatch {A : Type} (body : Js A) (handler : Exn → Js A) : Js A :=
  λ w, match body w with
       | (Returned a, w') => (Returned a, w')
       | (Thrown e, w') => handler e w'
       end.

(** The world once the current reading of the clock has been taken. *)
Definition tick (w : World) : World :=
  mkWorld (λ n, clock w (S n)) (objectIds w) (stakingUsers w) (daoProposals w).

(** [Date.now()] (and [new Date()]): the next reading of the clock. *)
Definition Date_now : Js Z := λ w, (Returned (clock w 0%nat), tick w).

(** The [_id] a new document receives. *)
Definition ObjectId_new : Js string := λ w,
  (Returned (objectIds w 0%nat),
   mkWorld (clock w) (λ n, objectIds w (S n)) (stakingUsers w) (daoProposals w)).

(** What a handler leaves when it answers without throwing. *)
Definition answer (r : Outcome Response * World) : option Response :=
  match r.1 with Returned res => Some res | Thrown _ => None end.

Definition json (code : Z) (b : Json) : Js Response :=
  mret (mkResponse code b).

(** ** backend/models/StakingUser.js *)

(** The validators of the schema, in the order of its paths:
    [walletAddress] is [required], [stakedAmount] and [rewards] have
    [min: 0]. *)
Definition StakingUser_failures (wallet : string) (u : StakingUser)
    : list (string * string) :=
  (if truthy wallet then [] else [("walletAddress", "required")])
  ++ (if bool_decide (0 ≤ stakedAmount u) then [] else [("stakedAmount", "min")])
  ++ (if bool_decide (0 ≤ rewards u) then [] else [("rewards", "min")]).

(** [new StakingUser({ walletAddress })]: the [trim] setter is applied to the
    address, the other paths take their defaults ([0], [0], [Date.now],
    [Date.now]). *)
Definition StakingUser_new (wallet : string) : Js StakingDoc :=
  claimed ← Date_now;
  changed ← Date_now;
  mret (mkStakingDoc true (trim wallet) (mkStakingUser 0 0 claimed changed)).

(** [StakingUser.findOne({ walletAddress })]; the filter is cast through the
    schema, so the [trim] setter applies to it as well. *)
Definition StakingUser_findOne (wallet : string) : Js (option StakingDoc) :=
  λ w, (Returned (mkStakingDoc false (trim wallet) <$> stakingUsers w !! trim wallet), w).

(** Writing an accepted document: an insert for a new one (the unique
    index on [walletAddress] refuses a second one), an update for a loaded
    one. The update rewrites the whole document; Mongoose sends the assigned
    paths only, which makes a difference when requests of different routes
    interleave, a case no statement below considers. *)
Definition StakingUser_write (user : StakingDoc) : Js unit := λ w,
  match stakingIsNew user, stakingUsers w !! walletAddress user with
  | true, Some _ => (Thrown (DuplicateKey "walletAddress"), w)
  | false, None => (Thrown DocumentNotFound, w)
  | _, _ =>
      (Returned (),
       setStakingUsers
         (<[walletAddress user := stakingFields user]> (stakingUsers w)) w)
  end.

(** [user.save()] *)
Definition StakingUser_save (user : StakingDoc) : Js unit :=
  match StakingUser_failures (walletAddress user) (stakingFields user) with
  | [] => StakingUser_write user
  | failures => throw (ValidationError failures)
  end.

(** ** backend/routes/staking.js *)

Definition STAKING_APR : Qc := Q2Qc 0.10.

(** The arithmetic of [calculateRewards], for a rate [annualRate] and the
    reading [now] of the clock. *)
Definition accruedRewards (annualRate : Qc) (now : Z)
    (staked : Qc) (lastDate : Z) : Qc :=
  let timeDiffHours := Qc_of_Z (now - lastDate) / Qc_of_Z (1000 * 60 * 60) in
  let dailyRate := annualRate / Qc_of_Z 365 in
  staked * dailyRate * (timeDiffHours / Qc_of_Z 24).

Definition calculateRewards (staked : Qc) (lastStakedOrUnstakedDate : Z) : Js Qc :=
  now ← Date_now;
  mret (accruedRewards STAKING_APR now staked lastStakedOrUnstakedDate).

(** [accrue] as the specification words it:
    [stakedAmount * (annualRate/365) * (elapsedTimeMs / 86_400_000)]. *)
Definition accrue (staked : Qc) (elapsedTimeMs : Z) (annualRate : Qc) : Qc :=
  staked * (annualRate / Qc_of_Z 365) * (Qc_of_Z elapsedTimeMs / Qc_of_Z 86400000).

Definition serverError (err : Exn) : Js Response :=
  json 500 (JMessage [ErrMessage err]).

(** [router.get('/:walletAddress')] *)
Definition getStaking (wallet : string) : Js Response :=
  tryCatch
    (found ← StakingUser_findOne wallet;
     match found with
     | Some doc =>
         let user := stakingFields doc in
         accrued ← calculateRewards (stakedAmount user) (lastStakedOrUnstaked user);
         let currentRewards := rewards user + accrued in
         json 200 (JStaking (stakedAmount user) currentRewards
                     (Some (lastClaimed user)) (Some (lastStakedOrUnstaked user)))
     | None => json 200 (JStaking 0 0 None None)
     end)
    serverError.

(** The guard of [router.post('/stake')]:
    [!walletAddress || !amount || amount <= 0]. *)
Definition stakeRejected (wallet : string) (amount : Qc) : bool :=
  negb (truthy wallet) || bool_decide (amount = 0) || bool_decide (amount ≤ 0).

(** [router.post('/stake')] from [findOne] up to the document it passes to
    [save]. *)
Definition stakeLoad (wallet : string) (amount : Qc) : Js StakingDoc :=
  found ← StakingUser_findOne wallet;
  user ← match found with
         | None => StakingUser_new wallet
         | Some (mkStakingDoc isNew a (mkStakingUser staked reward claimed changed)) =>
             accrued ← calculateRewards staked changed;
             mret (mkStakingDoc isNew a
                     (mkStakingUser staked (reward + accrued) claimed changed))
         end;
  let '(mkStakingDoc isNew a (mkStakingUser staked reward claimed changed)) := user in
  now ← Date_now;
  mret (mkStakingDoc isNew a (mkStakingUser (staked + amount) reward claimed now)).

(** ... and from [await user.save()] to the answer. *)
Definition stakeSave (user : StakingDoc) : Js Response :=
  StakingUser_save user;;
  json 200 (JMessageUser [Lit "Staking successful."]
              (walletAddress user) (stakingFields user)).

Definition stakeBadRequest : Js Response :=
  json 400 (JMessage
    [Lit "Wallet address and staking amount are required and must be positive."]).

(** [router.post('/stake')] *)
Definition postStake (wallet : string) (amount : Qc) : Js Response :=
  if stakeRejected wallet amount then stakeBadRequest
  else tryCatch (user ← stakeLoad wallet amount; stakeSave user) serverError.

(** [router.post('/claim-rewards')] *)
Definition postClaimRewards (wallet : string) : Js Response :=
  if negb (truthy wallet) then
    json 400 (JMessage [Lit "Wallet address is required."])
  else tryCatch
    (found ← StakingUser_findOne wallet;
     match found with
     | None => json 404 (JMessage [Lit "Staking user not found."])
     | Some (mkStakingDoc isNew a (mkStakingUser staked reward claimed changed)) =>
         accrued ← calculateRewards staked changed;
         let currentRewards := reward + accrued in
         if bool_decide (currentRewards ≤ 0) then
           json 400 (JMessage [Lit "No rewards to claim."])
         else
           claimedNow ← Date_now;
           changedNow ← Date_now;
           let user := mkStakingDoc isNew a (mkStakingUser staked 0 claimedNow changedNow) in
           StakingUser_save user;;
           json 200 (JMessageUser
             [Lit "Successfully claimed "; Lit (toFixed 2 currentRewards);
              Lit " AFOX rewards."]
             (walletAddress user) (stakingFields user))
     end)
    serverError.

(** [router.post('/unstake')] *)
Definition postUnstake (wallet : string) : Js Response :=
  if negb (truthy wallet) then
    json 400 (JMessage [Lit "Wallet address is required."])
  else tryCatch
    (found ← StakingUser_findOne wallet;
     match found with
     | None => json 404 (JMessage [Lit "Staking user not found."])
     | Some (mkStakingDoc isNew a (mkStakingUser staked reward claimed changed)) =>
         if bool_decide (staked ≤ 0) then
           json 400 (JMessage [Lit "You have no AFOX staked."])
         else
           accrued ← calculateRewards staked changed;
           let reward' := reward + accrued in
           let totalUnstakedAmount := staked + reward' in
           changedNow ← Date_now;
           claimedNow ← Date_now;
           let user := mkStakingDoc isNew a (mkStakingUser 0 0 claimedNow changedNow) in
           StakingUser_save user;;
           json 200 (JMessageUser
             [Lit "Successfully unstaked "; Lit (toFixed 2 totalUnstakedAmount);
              Lit " AFOX."]
             (walletAddress user) (stakingFields user))
     end)
    serverError.

(** *** Requests in flight

    A [/stake] request is suspended twice, at [await findOne] and at
    [await save]; between the two the document lives in the handler only.
    [resume] runs a request to its next suspension, [runSchedule] resumes
    the requests of a pool in a given order. *)
Inductive InFlight :=
| Arrived (wallet : string) (amount : Qc)
| Loaded (user : StakingDoc)
| Answered (res : Response).

Definition resume (t : InFlight) : Js InFlight :=
  match t with
  | Arrived wallet amount =>
      if stakeRejected wallet amount then Answered <$> stakeBadRequest
      else tryCatch (Loaded <$> stakeLoad wallet amount)
                    (λ err, Answered <$> serverError err)
  | Loaded user =>
      tryCatch (Answered <$> stakeSave user) (λ err, Answered <$> serverError err)
  | Answered res => mret (Answered res)
  end.

Fixpoint runSchedule (schedule : list nat) (pool : list InFlight) : Js (list InFlight) :=
  match schedule with
  | [] => mret pool
  | i :: rest =>
      match pool !! i with
      | Some t => t' ← resume t; runSchedule rest (<[i := t']> pool)
      | None => runSchedule rest pool
      end
  end.

(** The schedule that serves [n] requests one after the other, starting
    with request [k]. *)
Fixpoint serial (k n : nat) : list nat :=
  match n with
  | O => []
  | S n' => k :: k :: serial (S k) n'
  end.

(** ** backend/models/DaoProposal.js *)

(** The validators of one string path: [required], then [minlength], then
    [maxlength]; the first that fails is the one reported. *)
Definition lengthFailure (path : string) (v : string) (lo hi : nat)
    : list (string * string) :=
  if negb (truthy v) then [(path, "required")]
  else if (String.length v <? lo)%nat then [(path, "minlength")]
  else if (hi <? String.length v)%nat then [(path, "maxlength")]
  else [].

(** The validators of the schema, in the order of its paths; [now] is the
    reading of [Date.now()] taken by the validator of [expiresAt]. The
    [status] path needs no case: [Status] has the two values of the enum
    only. *)
Definition DaoProposal_failures (now : Z) (p : DaoProposal) : list (string * string) :=
  lengthFailure "title" (title p) 5 200
  ++ lengthFailure "description" (description p) 20 5000
  ++ (if negb (truthy (creatorWallet p)) then [("creatorWallet", "required")]
      else if solanaAddressRegex (creatorWallet p) then []
      else [("creatorWallet", "user defined")])
  ++ (if bool_decide (0 ≤ votesFor p)%Z then [] else [("votesFor", "min")])
  ++ (if bool_decide (0 ≤ votesAgainst p)%Z then [] else [("votesAgainst", "min")])
  ++ (if forallb solanaAddressRegex (voters p) then [] else [("voters", "user defined")])
  ++ (if bool_decide (now < expiresAt p)%Z then [] else [("expiresAt", "user defined")]).

(** The message the schema attaches to a failed validator. *)
Definition DaoProposal_message (p : DaoProposal) (failure : string * string) : Message :=
  match failure with
  | ("title", "required") => [Lit "Proposal title is required."]
  | ("title", "minlength") => [Lit "Proposal title must be at least 5 characters long."]
  | ("title", "maxlength") => [Lit "Proposal title cannot exceed 200 characters."]
  | ("description", "required") => [Lit "Proposal description is required."]
  | ("description", "minlength") =>
      [Lit "Proposal description must be at least 20 characters long."]
  | ("description", "maxlength") =>
      [Lit "Proposal description cannot exceed 5000 characters."]
  | ("creatorWallet", "required") => [Lit "Creator wallet address is required."]
  | ("creatorWallet", _) =>
      [Lit (creatorWallet p);
       Lit " is not a valid Solana wallet address format for the creator!"]
  | ("votesFor", _) => [Lit "Votes for cannot be negative."]
  | ("votesAgainst", _) => [Lit "Votes against cannot be negative."]
  | ("voters", _) =>
      [Lit "One or more wallet addresses in the voters list are not in a valid Solana address format."]
  | ("expiresAt", _) =>
      [Lit "The expiration date ("; DateText (expiresAt p);
       Lit ") must be in the future for an active proposal."]
  | _ => []
  end.

(** [new DaoProposal({ ... })]: a fresh [_id], and the [trim] setters of the
    three string paths. *)
Definition DaoProposal_new (p : DaoProposal) : Js ProposalDoc :=
  id ← ObjectId_new;
  mret (mkProposalDoc None id
          (mkDaoProposal (trim (title p)) (trim (description p)) (trim (creatorWallet p))
             (votesFor p) (votesAgainst p) (voters p) (expiresAt p) (status p))).

(** What the routes borrow from libraries: whether [new PublicKey(s)]
    returns rather than throws, [mongoose.Types.ObjectId.isValid(s)], and the
    cast of a string to an [_id]: [ObjectId_hex s] is the hexadecimal
    spelling of the ObjectId that the string [s] denotes
    ([new ObjectId(s).toHexString()]), under which the collection holds the
    document; two spellings of one id (upper and lower case digits) have the
    same. A string that [isValid] accepts can be cast. *)
Class Externals := {
  PublicKey_parses : string → bool;
  ObjectId_isValid : string → bool;
  ObjectId_hex : string → string }.

(** [DaoProposal.findById(proposalId)]: the id is cast, and the document
    found remembers the values it has at that moment. *)
Definition DaoProposal_findById `{Externals} (id : string) : Js (option ProposalDoc) :=
  λ w, (Returned ((λ p, mkProposalDoc (Some p) (ObjectId_hex id) p)
                    <$> daoProposals w !! ObjectId_hex id), w).

(** What [save] sends for a loaded document, applied to what is stored by
    then: a [$set] of each path whose value is no longer the loaded one, and
    a [$push] of what the handler appended to [voters] (the routes do
    nothing else to that array). A path that is not sent keeps what is
    stored. *)
Definition assigned {A : Type} `{EqDecision A} (loaded current stored : A) : A :=
  if decide (current = loaded) then stored else current.

Definition DaoProposal_changes (loaded current stored : DaoProposal) : DaoProposal :=
  mkDaoProposal
    (assigned (title loaded) (title current) (title stored))
    (assigned (description loaded) (description current) (description stored))
    (assigned (creatorWallet loaded) (creatorWallet current) (creatorWallet stored))
    (assigned (votesFor loaded) (votesFor current) (votesFor stored))
    (assigned (votesAgainst loaded) (votesAgainst current) (votesAgainst stored))
    (voters stored ++ drop (length (voters loaded)) (voters current))
    (assigned (expiresAt loaded) (expiresAt current) (expiresAt stored))
    (assigned (status loaded) (status current) (status stored)).

(** Writing an accepted document: an insert for a new one (its [_id] must
    be free), an update with its changes for a loaded one (which must still
    be stored). *)
Definition DaoProposal_write (proposal : ProposalDoc) : Js unit := λ w,
  let key := proposalKey proposal in
  match proposalLoaded proposal, daoProposals w !! key with
  | None, Some _ => (Thrown (DuplicateKey "_id"), w)
  | Some _, None => (Thrown DocumentNotFound, w)
  | None, None =>
      (Returned (),
       setDaoProposals (<[key := proposalFields proposal]> (daoProposals w)) w)
  | Some loaded, Some stored =>
      (Returned (),
       setDaoProposals
         (<[key := DaoProposal_changes loaded (proposalFields proposal) stored]>
            (daoProposals w)) w)
  end.

(** [proposal.save()] *)
Definition DaoProposal_save (proposal : ProposalDoc) : Js unit :=
  now ← Date_now;
  match DaoProposal_failures now (proposalFields proposal) with
  | [] => DaoProposal_write proposal
  | failures => throw (ValidationError failures)
  end.

(** ** backend/routes/dao.js *)

Section Dao.
Context `{Externals}.

(** [router.post('/proposals')] *)
Definition postProposals (title description creatorWallet : string) : Js Response :=
  if negb (truthy title) || negb (truthy description) || negb (truthy creatorWallet) then
    json 400 (JMessage
      [Lit "Request missing required fields: title, description, and creator wallet address."])
  else if negb (PublicKey_parses creatorWallet) then
    json 400 (JMessage
      [Lit "The provided creator wallet address is not a valid Solana public key format."])
  else
    now ← Date_now;
    let expiresAt := (now + 7 * 24 * 60 * 60 * 1000)%Z in
    newProposal ← DaoProposal_new
      (mkDaoProposal title description creatorWallet 0 0 [] expiresAt active);
    tryCatch
      (DaoProposal_save newProposal;;
       json 201 (JMessageProposal
         [Lit "DAO proposal successfully created and saved!"]
         (proposalKey newProposal) (proposalFields newProposal)))
      (λ error,
         match error with
         | ValidationError failures =>
             json 400 (JMessageErrors
               [Lit "Validation failed for proposal data."]
               (DaoProposal_message (proposalFields newProposal) <$> failures))
         | _ =>
             json 500 (JMessage
               [Lit "Failed to create DAO proposal due to an unexpected server error. Please check your input and try again."])
         end).

(** The checks [router.post('/vote')] makes before it reads the
    collection: the answer it refuses the request with, if it does. *)
Definition voteRefused (proposalId voteType voterWallet : string) : option Response :=
  if negb (truthy proposalId) || negb (truthy voteType) || negb (truthy voterWallet) then
    Some (mkResponse 400 (JMessage
      [Lit "Request missing required fields: proposal ID, vote type, and voter wallet address."]))
  else if negb (ObjectId_isValid proposalId) then
    Some (mkResponse 400 (JMessage [Lit "Invalid Proposal ID format provided."]))
  else if negb (PublicKey_parses voterWallet) then
    Some (mkResponse 400 (JMessage
      [Lit "The provided voter wallet address is not a valid Solana public key format."]))
  else if negb (bool_decide (voteType ∈ ["for"; "against"])) then
    Some (mkResponse 400 (JMessage
      [Lit "Invalid vote type. Please use "; Lit quote; Lit "for"; Lit quote;
       Lit " or "; Lit quote; Lit "against"; Lit quote; Lit "."]))
  else None.

(** [router.post('/vote')] from what [await findById] gave to the answer. *)
Definition voteFinish (voteType voterWallet : string) (found : option ProposalDoc)
    : Js Response :=
  match found with
  | None => json 404 (JMessage [Lit "DAO Proposal not found with the provided ID."])
  | Some (mkProposalDoc loaded id (mkDaoProposal t d c for_ against vs expires st)) =>
      now ← Date_now;
      if bool_decide (expires ≤ now)%Z then
        (if bool_decide (st = active) then
           DaoProposal_save
             (mkProposalDoc loaded id (mkDaoProposal t d c for_ against vs expires completed))
         else mret ());;
        json 400 (JMessage [Lit "Voting for this proposal has already ended."])
      else if bool_decide (voterWallet ∈ vs) then
        json 409 (JMessage
          [Lit "You have already cast a vote on this proposal. Each wallet can vote only once."])
      else
        let '(for_, against) :=
          if bool_decide (voteType = "for") then ((for_ + 1)%Z, against)
          else (for_, (against + 1)%Z) in
        let proposal :=
          mkProposalDoc loaded id
            (mkDaoProposal t d c for_ against (vs ++ [voterWallet]) expires st) in
        DaoProposal_save proposal;;
        json 200 (JMessageProposal
          [Lit "Your vote has been successfully cast!"]
          (proposalKey proposal) (proposalFields proposal))
  end.

(** The [catch] of [router.post('/vote')]. *)
Definition voteFailed (error : Exn) : Js Response :=
  json 500 (JMessage
    [Lit "Failed to cast vote due to an unexpected server error. Please try again later."]).

(** [router.post('/vote')] *)
Definition postVote (proposalId voteType voterWallet : string) : Js Response :=
  match voteRefused proposalId voteType voterWallet with
  | Some refusal => mret refusal
  | None =>
      tryCatch
        (found ← DaoProposal_findById proposalId;
         voteFinish voteType voterWallet found)
        voteFailed
  end.

(** *** Votes in flight

    A [/vote] request is suspended at [await findById] and at [await save];
    between the two the proposal lives in the handler only. [resumeVote]
    runs a request to its next suspension, [runVotes] resumes the requests
    of a pool in a given order. *)
Inductive VoteInFlight :=
| VoteArrived (proposalId voteType voterWallet : string)
| VoteLoaded (voteType voterWallet : string) (found : option ProposalDoc)
| VoteAnswered (res : Response).

Definition resumeVote (t : VoteInFlight) : Js VoteInFlight :=
  match t with
  | VoteArrived proposalId voteType voterWallet =>
      match voteRefused proposalId voteType voterWallet with
      | Some refusal => mret (VoteAnswered refusal)
      | None =>
          tryCatch (VoteLoaded voteType voterWallet <$> DaoProposal_findById proposalId)
                   (λ error, VoteAnswered <$> voteFailed error)
      end
  | VoteLoaded voteType voterWallet found =>
      tryCatch (VoteAnswered <$> voteFinish voteType voterWallet found)
               (λ error, VoteAnswered <$> voteFailed error)
  | VoteAnswered res => mret (VoteAnswered res)
  end.


End Dao.

(** ** Vocabulary of the statements *)

(** Every reading of the clock gives [now]: the request is served within one
    millisecond. *)
Definition frozenAt (now : Z) (w : World) : Prop := ∀ n, clock w n = now.

(** The clock never runs backwards. *)
Definition monotoneClock (w : World) : Prop := ∀ n, (clock w n ≤ clock w (S n))%Z.

(** Every stored staking document passes the validators of its schema, as
    every document written by [save] does. *)
Definition storeValid (w : World) : Prop :=
  ∀ wallet u, stakingUsers w !! wallet = Some u → StakingUser_failures wallet u = [].




(** The document [/stake] writes for [wallet], as a function of what the
    collection holds and of the readings of the clock. *)
Definition stakedDocument (wallet : string) (amount : Qc) (w : World) : StakingUser :=
  match stakingUsers w !! trim wallet with
  | Some user =>
      mkStakingUser (stakedAmount user + amount)
        (rewards user
         + accrue (stakedAmount user)
             (clock w 0%nat - lastStakedOrUnstaked user) STAKING_APR)
        (lastClaimed user) (clock w 1%nat)
  | None => mkStakingUser (0 + amount) 0 (clock w 0%nat) (clock w 2%nat)
  end.

(** The handler answered, with status 200. *)
Definition succeeded (r : Outcome Response * World) : Prop :=
  ∃ res, answer r = Some res ∧ statusCode res = 200%Z.

(** A world with nothing stored, whose clock reads [0]. *)
Definition emptyWorld : World := mkWorld (λ _, 0%Z) (λ _, EmptyString) ∅ ∅.

(** The two documents [/vote] can pass to [save]: the proposal marked
    [completed], and the proposal with one more vote. *)
Definition closed (p : DaoProposal) : DaoProposal :=
  mkDaoProposal (title p) (description p) (creatorWallet p) (votesFor p)
    (votesAgainst p) (voters p) (expiresAt p) completed.

Definition withVote (forVote : bool) (voter : string) (p : DaoProposal) : DaoProposal :=
  mkDaoProposal (title p) (description p) (creatorWallet p)
    (if forVote then votesFor p + 1 else votesFor p)%Z
    (if forVote then votesAgainst p else votesAgainst p + 1)%Z
    (voters p ++ [voter]) (expiresAt p) (status p).

(** The four checks [/vote] makes on the request before it reads the
    collection. *)
Definition voteAdmitted `{Externals} (proposalId voteType voterWallet : string) : bool :=
  truthy proposalId && truthy voteType && truthy voterWallet
  && ObjectId_isValid proposalId && PublicKey_parses voterWallet
  && bool_decide (voteType ∈ ["for"; "against"]).

(** The lower-case spelling of a string of ASCII characters. *)
Fixpoint lowerCase (s : string) : string :=
  match s with
  | EmptyString => EmptyString
  | String a s' =>
      String (if inRange "A" "Z" a then ascii_of_nat (nat_of_ascii a + 32) else a)
        (lowerCase s')
  end.

Definition hexDigit (a : ascii) : bool :=
  inRange "0" "9" a || inRange "a" "f" a || inRange "A" "F" a.

(** A stand-in for the library functions, for the examples: 24 hexadecimal
    digits for an id, cast to their lower-case spelling, and the format of
    the schemas for a public key. *)
Definition sampleExternals : Externals :=
  {| PublicKey_parses := solanaAddressRegex;
     ObjectId_isValid := λ s, (String.length s =? 24)%nat && allChars hexDigit s;
     ObjectId_hex := lowerCase |}.

(** The scenario of the specification: a proposal created at time 0 in a
    world whose id generator hands out [sampleId], on which [walletW1] votes
    "for" after one day. *)
Definition walletW1 : string := "4Nd1mYw5b3sX8Qk9H7pLrT2uVzEfGcJaKoMnPqRsTuVw".
Definition walletW2 : string := "9xQeWvG816bUx9EPjHmaT23yvVM2ZWbrrpZb9PusVFin".
Definition sampleId : string := "65a1b2c3d4e5f60718293a4b".
Definition day : Z := 86400000.

Definition proposalCreated : World :=
  (@postProposals sampleExternals "Fund the park"
     "Spend the treasury surplus on the park." walletW1
     (mkWorld (λ _, 0%Z) (λ _, sampleId) ∅ ∅)).2.

Definition votedOnce : World :=
  (@postVote sampleExternals sampleId "for" walletW1 (atTime day proposalCreated)).2.

(** The proposal the scenario stores, and the world before it. *)
Definition parkProposal : DaoProposal :=
  mkDaoProposal "Fund the park" "Spend the treasury surplus on the park." walletW1
    0 0 [] (7 * day) active.

Definition beforeProposals : World := mkWorld (λ _, 0%Z) (λ _, sampleId) ∅ ∅.

(** What the collection holds for [wallet] once [j] stakes of 1 have been
    served: nothing before the first, then a valid document with principal
    [j] whose accrual clock is not ahead of the clock. *)
Definition stakedTimes (j : nat) (wallet : string) (w : World) : Prop :=
  monotoneClock w
  ∧ match j with
    | O => stakingUsers w !! trim wallet = None
    | S _ =>
        ∃ user, stakingUsers w !! trim wallet = Some user
                ∧ stakedAmount user = Qc_of_Z (Z.of_nat j)
                ∧ 0 ≤ rewards user
                ∧ (lastStakedOrUnstaked user ≤ clock w 0%nat)%Z
    end.

(** The status codes of the requests of a pool that have been answered. *)
Definition statusesOf (r : Outcome (list InFlight)) : list (option Z) :=
  match r with
  | Returned pool =>
      (λ t, match t with Answered res => Some (statusCode res) | _ => None end) <$> pool
  | Thrown _ => []
  end.


(** [n] requests [Stake(wallet, 1)] that have just arrived. *)
Definition arrivals (n : nat) (wallet : string) : list InFlight :=
  replicate n (Arrived wallet 1).

(** The principal and the reward that [GET /:walletAddress] shows. *)
Definition shownStake (r : Outcome Response * World) : option (Qc * Qc) :=
  match answer r with
  | Some res =>
      match body res with
      | JStaking staked reward _ _ => Some (staked, reward)
      | _ => None
      end
  | None => None
  end.

(** The status code of the answer, if the handler answered. *)
Definition statusOf (r : Outcome Response * World) : option Z :=
  statusCode <$> answer r.

(** The collections once a staking route has served [wallet]: the DAO
    collection is as it was, and the staking collection is as it was or has
    a new document under the trimmed address. *)
Definition touchesOnly (wallet : string) (w w' : World) : Prop :=
  daoProposals w' = daoProposals w
  ∧ (stakingUsers w' = stakingUsers w
     ∨ ∃ user, stakingUsers w' = <[trim wallet := user]> (stakingUsers w)).

(** The proposal [/proposals] builds from a request: trimmed texts, no
    votes, [active], and a deadline seven days after the reading of the
    clock. *)
Definition proposed (title description creatorWallet : string) (now : Z) : DaoProposal :=
  mkDaoProposal (trim title) (trim description) (trim creatorWallet) 0 0 []
    (now + 7 * 24 * 60 * 60 * 1000) active.

(** What the schema asks of the paths of a proposal other than its
    deadline. *)
Definition wellFormed (p : DaoProposal) : Prop :=
  (5 ≤ String.length (title p) ≤ 200)%nat
  ∧ (20 ≤ String.length (description p) ≤ 5000)%nat
  ∧ solanaAddressRegex (creatorWallet p) = true
  ∧ (0 ≤ votesFor p)%Z ∧ (0 ≤ votesAgainst p)%Z
  ∧ forallb solanaAddressRegex (voters p) = true.

(** The three presence checks and the public-key check of [/proposals]. *)
Definition proposalAdmitted `{Externals} (title description creatorWallet : string) : bool :=
  truthy title && truthy description && truthy creatorWallet
  && PublicKey_parses creatorWallet.

(** ** The page: address display and the staking panel ([script.js])

    The page keeps three numbers of the connected wallet and writes them
    into five elements of the document; [document] holds the [textContent]
    of the elements by id (the page is taken to have them). *)
Module Frontend.

(** [truncateAddress]: [substring] clamps a negative start to [0], as the
    subtraction of naturals does. *)
Definition truncateAddress (address : string) : string :=
  if negb (truthy address) then "N/A"
  else takeChars 6 address +:+ "..."
       +:+ dropChars (String.length address - 4) address.

Definition STAKING_APR : Z := 10.




End Frontend.

(** * Properties *)

(** ** Arithmetic on amounts *)

Arguments accruedRewards : simpl never.
Arguments accrue : simpl never.
Arguments toFixed : simpl never.

(** Moves a goal or hypothesis about [Qc] to the underlying fractions, where
    [field] and [lra] know the numerals. *)
Ltac to_Q :=
  try apply Qc_is_canon;
  unfold Qcle, Qclt, Qcdiv, Qcinv, Qcmult, Qcplus, Qcminus, Qcopp, Q2Qc, Qc_of_Z in *;
  cbn [this] in *; rewrite ?Qred_correct in *.

Lemma accruedRewards_accrue (annualRate : Qc) (now : Z) (staked : Qc) (lastDate : Z) :
  accruedRewards annualRate now staked lastDate
  = accrue staked (now - lastDate) annualRate.
Proof.
  unfold accruedRewards, accrue. to_Q.
  change (1000 * 60 * 60)%Z with 3600000%Z.
  generalize (inject_Z (now - lastDate)); intros elapsed. field.
Qed.

Lemma accrue_zero (staked annualRate : Qc) : accrue staked 0 annualRate = 0.
Proof. unfold accrue. to_Q. change (inject_Z 0) with 0%Q. field. Qed.

Lemma accrue_mono (staked annualRate : Qc) (e1 e2 : Z) :
  0 ≤ staked → 0 ≤ annualRate → (e1 ≤ e2)%Z →
  accrue staked e1 annualRate ≤ accrue staked e2 annualRate.
Proof.
  intros Hs Hr He. unfold accrue. to_Q.
  assert (Hq : (inject_Z e1 <= inject_Z e2)%Q) by (rewrite <- Zle_Qle; exact He).
  revert Hq. generalize (inject_Z e1) (inject_Z e2). intros q1 q2 Hq.
  set (c := (this staked * this annualRate * (1 # 365) * (1 # 86400000))%Q).
  assert (Hc : (0 <= c)%Q).
  { unfold c. repeat apply Qmult_le_0_compat; try assumption; discriminate. }
  assert (E : ∀ q, (this staked * (this annualRate * / inject_Z 365)
                    * (q * / inject_Z 86400000) == q * c)%Q).
  { intros q. unfold c. field. }
  rewrite !E. apply Qmult_le_compat_r; assumption.
Qed.

Lemma accrue_nonneg (staked annualRate : Qc) (e : Z) :
  0 ≤ staked → 0 ≤ annualRate → (0 ≤ e)%Z → 0 ≤ accrue staked e annualRate.
Proof.
  intros Hs Hr He. rewrite <- (accrue_zero staked annualRate).
  by apply accrue_mono.
Qed.

Lemma accrue_nonpos (staked annualRate : Qc) (e : Z) :
  0 ≤ staked → 0 ≤ annualRate → (e ≤ 0)%Z → accrue staked e annualRate ≤ 0.
Proof.
  intros Hs Hr He. rewrite <- (accrue_zero staked annualRate).
  by apply accrue_mono.
Qed.

Lemma accrue_neg (staked annualRate : Qc) (e : Z) :
  0 < staked → 0 < annualRate → (e < 0)%Z → accrue staked e annualRate < 0.
Proof.
  intros Hs Hr He. unfold accrue. to_Q.
  assert (Hq : (inject_Z e < 0)%Q) by (change 0%Q with (inject_Z 0); by rewrite <- Zlt_Qlt).
  revert Hq. generalize (inject_Z e). intros q Hq.
  set (c := (this staked * this annualRate * (1 # 365) * (1 # 86400000))%Q).
  assert (Hc : (0 < c)%Q).
  { unfold c. repeat apply Qmult_lt_0_compat; try assumption; reflexivity. }
  assert (E : (this staked * (this annualRate * / inject_Z 365)
               * (q * / inject_Z 86400000) == q * c)%Q).
  { unfold c. field. }
  rewrite E. rewrite <- (Qmult_0_l c).
  by apply Qmult_lt_compat_r.
Qed.

Lemma STAKING_APR_range : 0 < STAKING_APR ∧ STAKING_APR < 1.
Proof. split; reflexivity. Qed.

Lemma STAKING_APR_nonneg : 0 ≤ STAKING_APR.
Proof. discriminate. Qed.

(** ** Running handlers *)

Lemma bind_run {A B : Type} (m : Js A) (k : A → Js B) (w : World) :
  (m ≫= k) w
  = match m w with
    | (Returned a, w') => k a w'
    | (Thrown e, w') => (Thrown e, w')
    end.
Proof. reflexivity. Qed.

Lemma fmap_run {A B : Type} (f : A → B) (m : Js A) (w : World) :
  (f <$> m) w
  = match m w with
    | (Returned a, w') => (Returned (f a), w')
    | (Thrown e, w') => (Thrown e, w')
    end.
Proof. reflexivity. Qed.

Lemma ret_run {A : Type} (a : A) (w : World) : (mret a : Js A) w = (Returned a, w).
Proof. reflexivity. Qed.

Lemma tryCatch_run {A : Type} (body : Js A) (handler : Exn → Js A) (w : World) :
  tryCatch body handler w
  = match body w with
    | (Returned a, w') => (Returned a, w')
    | (Thrown e, w') => handler e w'
    end.
Proof. reflexivity. Qed.

Lemma Date_now_run (w : World) : Date_now w = (Returned (clock w 0%nat), tick w).
Proof. reflexivity. Qed.

Lemma calculateRewards_run (staked : Qc) (lastDate : Z) (w : World) :
  calculateRewards staked lastDate w
  = (Returned (accrue staked (clock w 0%nat - lastDate) STAKING_APR), tick w).
Proof.
  unfold calculateRewards. rewrite bind_run. cbn. by rewrite accruedRewards_accrue.
Qed.

(** A handler that turns every exception into an answer leaves the world
    its body leaves. *)
Lemma tryCatch_json_world (body : Js Response) (reply : Exn → Response) (w : World) :
  (tryCatch body (λ e, mret (reply e)) w).2 = (body w).2.
Proof. rewrite tryCatch_run. by destruct (body w) as [[res|e] w']. Qed.

Lemma tryCatch_serverError_world (body : Js Response) (w : World) :
  (tryCatch body serverError w).2 = (body w).2.
Proof. rewrite tryCatch_run. by destruct (body w) as [[res|e] w']. Qed.

Lemma then_json_world (m : Js unit) (code : Z) (b : Json) (w : World) :
  ((m;; json code b) w).2 = (m w).2.
Proof. rewrite bind_run. by destruct (m w) as [[[]|e] w']. Qed.

Lemma frozenAt_tick (now : Z) (w : World) : frozenAt now w → frozenAt now (tick w).
Proof. intros Hw n. apply Hw. Qed.

Lemma frozenAt_atTime (now : Z) (w : World) : frozenAt now (atTime now w).
Proof. by intros n. Qed.

(** ** The accrual function *)

(** C7. The arithmetic of [calculateRewards] is the reference formula
    [stakedAmount * (annualRate/365) * (elapsedTimeMs / 86_400_000)]: the
    hour-based expression the code writes equals it, what the function
    returns on a reading [now] of the clock is the formula at
    [now - lastDate] for the rate [STAKING_APR], and for a fixed principal
    the result does not decrease when the elapsed time grows. *)
Theorem accrual_is_reference_formula
    (staked annualRate : Qc) (elapsedTimeMs : Z) :
  0 ≤ staked → (0 ≤ elapsedTimeMs)%Z → 0 ≤ annualRate ∧ annualRate < 1 →
  staked * (annualRate / Qc_of_Z 365)
    * (Qc_of_Z elapsedTimeMs / Qc_of_Z 3600000 / Qc_of_Z 24)
  = accrue staked elapsedTimeMs annualRate
  ∧ (∀ now lastDate, (now - lastDate)%Z = elapsedTimeMs →
       accruedRewards annualRate now staked lastDate
       = accrue staked elapsedTimeMs annualRate)
  ∧ (∀ w lastDate, (clock w 0%nat - lastDate)%Z = elapsedTimeMs →
       (calculateRewards staked lastDate w).1
       = Returned (accrue staked elapsedTimeMs STAKING_APR))
  ∧ (∀ longer, (elapsedTimeMs ≤ longer)%Z →
       accrue staked elapsedTimeMs annualRate ≤ accrue staked longer annualRate).
Proof.
  intros Hs He [Hr _]. repeat split.
  - transitivity (accruedRewards annualRate elapsedTimeMs staked 0).
    + unfold accruedRewards. by rewrite Z.sub_0_r.
    + by rewrite accruedRewards_accrue, Z.sub_0_r.
  - intros now lastDate <-. apply accruedRewards_accrue.
  - intros w lastDate <-. by rewrite calculateRewards_run.
  - intros longer Hl. by apply accrue_mono.
Qed.

Ltac decided :=
  match goal with
  | |- ?P => apply (bool_decide_eq_true_1 P); vm_compute; reflexivity
  end.

Lemma accrual_is_reference_formula_witness :
  accrue (Qc_of_Z 100) 86400000 STAKING_APR
  ≤ accrue (Qc_of_Z 100) 172800000 STAKING_APR.
Proof.
  apply (accrual_is_reference_formula (Qc_of_Z 100) STAKING_APR 86400000);
    [decided | lia | split; decided | lia].
Defined.

(** C2 (amended). For a principal [>= 0], what [calculateRewards] returns has
    the sign of the elapsed time it reads: it is [>= 0] when the clock is at
    or after [lastDate], exactly [0] when the two coincide, and [<= 0]
    (strictly negative for a positive principal) when the clock is behind
    [lastDate]; no clamping takes place. *)
Theorem accrual_sign_follows_elapsed_time (staked : Qc) (lastDate : Z) (w : World) :
  0 ≤ staked →
  ∃ reward,
    (calculateRewards staked lastDate w).1 = Returned reward
    ∧ ((lastDate ≤ clock w 0%nat)%Z → 0 ≤ reward)
    ∧ (clock w 0%nat = lastDate → reward = 0)
    ∧ ((clock w 0%nat < lastDate)%Z → reward ≤ 0 ∧ (0 < staked → reward < 0)).
Proof.
  intros Hs. eexists. split; [by rewrite calculateRewards_run|].
  repeat split.
  - intros Ht. apply accrue_nonneg; [done | apply STAKING_APR_nonneg | lia].
  - intros ->. rewrite Z.sub_diag. apply accrue_zero.
  - apply accrue_nonpos; [done | apply STAKING_APR_nonneg | lia].
  - intros Hpos. apply accrue_neg; [done | apply STAKING_APR_range | lia].
Qed.

Lemma accrual_sign_follows_elapsed_time_witness :
  ∃ reward,
    (calculateRewards (Qc_of_Z 100) 0 (atTime 86400000 emptyWorld)).1 = Returned reward
    ∧ 0 ≤ reward.
Proof.
  destruct (accrual_sign_follows_elapsed_time (Qc_of_Z 100) 0 (atTime 86400000 emptyWorld))
    as (reward & Hrun & Hpos & _); [decided|].
  exists reward. split; [exact Hrun | apply Hpos; simpl; lia].
Defined.

(** C2, as stated, fails: with the clock one day behind [lastDate], a
    principal of 100 accrues [-2/73]. *)
Lemma negative_elapsed_time_is_not_clamped :
  (calculateRewards (Qc_of_Z 100) 86400000 (atTime 0 emptyWorld)).1
  = Returned (Q2Qc (-2 # 73))
  ∧ ¬ (0 ≤ Q2Qc (-2 # 73)).
Proof.
  split.
  - rewrite calculateRewards_run. cbn [fst]. f_equal; by apply Qc_is_canon.
  - intros H. by vm_compute in H.
Qed.

(** ** The staking routes *)

Lemma findOne_run (wallet : string) (w : World) :
  StakingUser_findOne wallet w
  = (Returned (mkStakingDoc false (trim wallet) <$> stakingUsers w !! trim wallet), w).
Proof. reflexivity. Qed.

Lemma truthy_trim (s : string) : truthy (trim s) = true → truthy s = true.
Proof. by destruct s. Qed.

Lemma StakingUser_failures_nil (wallet : string) (u : StakingUser) :
  StakingUser_failures wallet u = []
  ↔ truthy wallet = true ∧ 0 ≤ stakedAmount u ∧ 0 ≤ rewards u.
Proof.
  unfold StakingUser_failures.
  destruct (truthy wallet); repeat case_bool_decide; cbn;
    split; try done; intros (? & ? & ?); done.
Qed.

Lemma save_run (user : StakingDoc) (w : World) :
  StakingUser_failures (walletAddress user) (stakingFields user) = [] →
  stakingIsNew user = bool_decide (stakingUsers w !! walletAddress user = None) →
  StakingUser_save user w
  = (Returned (),
     setStakingUsers (<[walletAddress user := stakingFields user]> (stakingUsers w)) w).
Proof.
  intros Hvalid Hnew. unfold StakingUser_save, StakingUser_write.
  rewrite Hvalid, Hnew.
  by destruct (stakingUsers w !! walletAddress user).
Qed.

Lemma save_invalid_run (user : StakingDoc) (w : World) :
  StakingUser_failures (walletAddress user) (stakingFields user) ≠ [] →
  StakingUser_save user w
  = (Thrown (ValidationError
       (StakingUser_failures (walletAddress user) (stakingFields user))), w).
Proof.
  intros Hinvalid. unfold StakingUser_save.
  by destruct (StakingUser_failures _ _).
Qed.

(** What [/stake] holds when it reaches [save], for a stored wallet ... *)
Lemma stakeLoad_stored (wallet : string) (amount : Qc) (w : World) (user : StakingUser) :
  stakingUsers w !! trim wallet = Some user →
  stakeLoad wallet amount w
  = (Returned (mkStakingDoc false (trim wallet)
       (mkStakingUser (stakedAmount user + amount)
          (rewards user
           + accrue (stakedAmount user)
               (clock w 0%nat - lastStakedOrUnstaked user) STAKING_APR)
          (lastClaimed user) (clock w 1%nat))),
     tick (tick w)).
Proof.
  intros Hfound. unfold stakeLoad.
  rewrite bind_run, findOne_run, Hfound. destruct user as [staked reward claimed changed].
  cbn [fmap option_fmap option_map].
  rewrite bind_run, bind_run, calculateRewards_run. reflexivity.
Qed.

(** ... and for a wallet that has no document yet. *)
Lemma stakeLoad_fresh (wallet : string) (amount : Qc) (w : World) :
  stakingUsers w !! trim wallet = None →
  stakeLoad wallet amount w
  = (Returned (mkStakingDoc true (trim wallet)
       (mkStakingUser (0 + amount) 0 (clock w 0%nat) (clock w 2%nat))),
     tick (tick (tick w))).
Proof.
  intros Hfresh. unfold stakeLoad.
  rewrite bind_run, findOne_run, Hfresh. reflexivity.
Qed.

Lemma stakeLoad_run (wallet : string) (amount : Qc) (w : World) :
  ∃ w', stakeLoad wallet amount w
        = (Returned (mkStakingDoc
             (bool_decide (stakingUsers w !! trim wallet = None))
             (trim wallet) (stakedDocument wallet amount w)), w')
        ∧ stakingUsers w' = stakingUsers w ∧ daoProposals w' = daoProposals w
        ∧ ∃ k, (2 ≤ k)%nat ∧ ∀ n, clock w' n = clock w (n + k)%nat.
Proof.
  unfold stakedDocument. destruct (stakingUsers w !! trim wallet) as [user|] eqn:Hfound.
  - eexists. split; [by apply stakeLoad_stored|]. repeat split.
    exists 2%nat. split; [lia|]. intros n. cbn. f_equal. lia.
  - eexists. split; [by apply stakeLoad_fresh|]. repeat split.
    exists 3%nat. split; [lia|]. intros n. cbn. f_equal. lia.
Qed.

(** A [/stake] request that passes the guard writes [stakedDocument] when
    the validators accept it, and answers 500 without writing otherwise. *)
Lemma postStake_run (wallet : string) (amount : Qc) (w : World) :
  stakeRejected wallet amount = false →
  let doc := stakedDocument wallet amount w in
  ∃ w', stakingUsers w' = stakingUsers w ∧ daoProposals w' = daoProposals w
    ∧ (∃ k, (2 ≤ k)%nat ∧ ∀ n, clock w' n = clock w (n + k)%nat)
    ∧ postStake wallet amount w
      = if decide (StakingUser_failures (trim wallet) doc = []) then
          (Returned (mkResponse 200
             (JMessageUser [Lit "Staking successful."] (trim wallet) doc)),
           setStakingUsers (<[trim wallet := doc]> (stakingUsers w')) w')
        else
          (Returned (mkResponse 500
             (JMessage [ErrMessage
                (ValidationError (StakingUser_failures (trim wallet) doc))])), w').
Proof.
  intros Hguard doc. unfold postStake. rewrite Hguard.
  destruct (stakeLoad_run wallet amount w) as (w' & Hload & Hs & Hd & Hk).
  exists w'. repeat split; try done.
  rewrite tryCatch_run, bind_run, Hload. unfold stakeSave. rewrite bind_run.
  case_decide as Hvalid.
  - rewrite save_run; [done | done |]. cbn. by rewrite Hs.
  - by rewrite save_invalid_run.
Qed.

Lemma stakeRejected_false (wallet : string) (amount : Qc) :
  truthy wallet = true → 0 < amount → stakeRejected wallet amount = false.
Proof.
  intros Hw Ha. unfold stakeRejected. rewrite Hw. cbn.
  rewrite !bool_decide_eq_false_2; [done | |].
  - by apply Qclt_not_le.
  - intros ->. by apply (Qclt_not_le _ _ Ha).
Qed.

Lemma stakeRejected_true (wallet : string) (amount : Qc) (w : World) :
  stakeRejected wallet amount = true →
  postStake wallet amount w
  = (Returned (mkResponse 400 (JMessage
       [Lit "Wallet address and staking amount are required and must be positive."])),
     w).
Proof. intros Hguard. unfold postStake. by rewrite Hguard. Qed.

(** C1. A successful [Stake(wallet, amount)] on a stored wallet adds
    [accrue(stakedAmount, now - lastStakedOrUnstaked, APR)], computed on the
    old principal, to [rewards], adds [amount] to [stakedAmount] and sets
    [lastStakedOrUnstaked] to [now]; on an unknown wallet it starts from the
    zero document. Staking 100 at [t0] and 50 at [t1] leaves
    [rewards = accrue(100, t1 - t0, APR)] and [stakedAmount = 150]. *)
Theorem stake_checkpoints_then_adds :
  (∀ (wallet : string) (amount : Qc) (now : Z) (w : World),
     0 < amount → frozenAt now w →
     succeeded (postStake wallet amount w) →
     stakingUsers (postStake wallet amount w).2
     = <[trim wallet :=
           match stakingUsers w !! trim wallet with
           | Some user =>
               mkStakingUser (stakedAmount user + amount)
                 (rewards user
                  + accrue (stakedAmount user)
                      (now - lastStakedOrUnstaked user) STAKING_APR)
                 (lastClaimed user) now
           | None => mkStakingUser (0 + amount) 0 now now
           end]> (stakingUsers w))
  ∧ (∀ (wallet : string) (t0 t1 : Z) (w : World),
       truthy (trim wallet) = true → stakingUsers w !! trim wallet = None →
       (t0 ≤ t1)%Z →
       let first := postStake wallet (Qc_of_Z 100) (atTime t0 w) in
       let second := postStake wallet (Qc_of_Z 50) (atTime t1 first.2) in
       succeeded first ∧ succeeded second
       ∧ stakingUsers second.2 !! trim wallet
         = Some (mkStakingUser (Qc_of_Z 150)
                   (accrue (Qc_of_Z 100) (t1 - t0) STAKING_APR) t0 t1)).
Proof.
  split.
  - intros wallet amount now w Hamount Hnow (res & Hres & Hcode).
    destruct (stakeRejected wallet amount) eqn:Hguard.
    { rewrite stakeRejected_true in Hres by done. by injection Hres as <-. }
    destruct (postStake_run wallet amount w Hguard) as (w' & Hs & _ & _ & Hrun).
    rewrite Hrun in Hres |- *. case_decide as Hvalid.
    + cbn. rewrite Hs. f_equal. unfold stakedDocument.
      destruct (stakingUsers w !! trim wallet); by rewrite !Hnow.
    + by injection Hres as <-.
  - intros wallet t0 t1 w Hwallet Hfresh Ht first second.
    assert (Hguard : ∀ a, 0 < a → stakeRejected wallet a = false).
    { intros a Ha. apply stakeRejected_false; [by apply truthy_trim | done]. }
    assert (Hfirst : ∃ w', first
      = (Returned (mkResponse 200 (JMessageUser [Lit "Staking successful."] (trim wallet)
           (mkStakingUser (Qc_of_Z 100) 0 t0 t0))),
         setStakingUsers (<[trim wallet := mkStakingUser (Qc_of_Z 100) 0 t0 t0]>
           (stakingUsers w')) w')).
    { destruct (postStake_run wallet (Qc_of_Z 100) (atTime t0 w)) as (w' & _ & _ & _ & Hrun);
        [by apply Hguard|].
      exists w'. unfold first. rewrite Hrun. unfold stakedDocument.
      cbn [stakingUsers atTime clock]. rewrite Hfresh.
      replace (0 + Qc_of_Z 100) with (Qc_of_Z 100) by ring.
      rewrite decide_True; [done |].
      apply StakingUser_failures_nil. by repeat split. }
    destruct Hfirst as (w1 & Hfirst).
    assert (Hsecond : ∃ w', second
      = (Returned (mkResponse 200 (JMessageUser [Lit "Staking successful."] (trim wallet)
           (mkStakingUser (Qc_of_Z 150) (accrue (Qc_of_Z 100) (t1 - t0) STAKING_APR) t0 t1))),
         setStakingUsers (<[trim wallet :=
           mkStakingUser (Qc_of_Z 150) (accrue (Qc_of_Z 100) (t1 - t0) STAKING_APR) t0 t1]>
           (stakingUsers w')) w')).
    { destruct (postStake_run wallet (Qc_of_Z 50) (atTime t1 first.2)) as (w' & _ & _ & _ & Hrun);
        [by apply Hguard|].
      exists w'. unfold second. rewrite Hrun. unfold stakedDocument.
      rewrite Hfirst. cbn [stakingUsers atTime clock snd setStakingUsers].
      rewrite lookup_insert_eq. cbn [stakedAmount rewards lastClaimed lastStakedOrUnstaked].
      replace (Qc_of_Z 100 + Qc_of_Z 50) with (Qc_of_Z 150) by (by apply Qc_is_canon).
      replace (0 + accrue (Qc_of_Z 100) (t1 - t0) STAKING_APR)
        with (accrue (Qc_of_Z 100) (t1 - t0) STAKING_APR) by ring.
      rewrite decide_True; [done |].
      apply StakingUser_failures_nil. repeat split; [done | done |].
      apply accrue_nonneg; [done | apply STAKING_APR_nonneg | lia]. }
    destruct Hsecond as (w2 & Hsecond).
    repeat split.
    + eexists. by rewrite Hfirst.
    + eexists. by rewrite Hsecond.
    + rewrite Hsecond. cbn. by rewrite lookup_insert_eq.
Qed.

Lemma stake_checkpoints_then_adds_witness :
  let first := postStake "alice" (Qc_of_Z 100) (atTime 0 emptyWorld) in
  let second := postStake "alice" (Qc_of_Z 50) (atTime 86400000 first.2) in
  stakingUsers second.2
  = <[trim "alice" :=
        match stakingUsers (atTime 86400000 first.2) !! trim "alice" with
        | Some user =>
            mkStakingUser (stakedAmount user + Qc_of_Z 50)
              (rewards user
               + accrue (stakedAmount user)
                   (86400000 - lastStakedOrUnstaked user) STAKING_APR)
              (lastClaimed user) 86400000
        | None => mkStakingUser (0 + Qc_of_Z 50) 0 86400000 86400000
        end]> (stakingUsers (atTime 86400000 first.2))
  ∧ stakingUsers second.2 !! trim "alice"
    = Some (mkStakingUser (Qc_of_Z 150)
              (accrue (Qc_of_Z 100) (86400000 - 0) STAKING_APR) 0 86400000).
Proof.
  intros first second. split.
  - apply (proj1 stake_checkpoints_then_adds "alice" (Qc_of_Z 50) 86400000%Z
             (atTime 86400000 first.2)).
    + decided.
    + intros n. reflexivity.
    + apply (proj2 stake_checkpoints_then_adds "alice" 0%Z 86400000%Z emptyWorld);
        [reflexivity | reflexivity | lia].
  - apply (proj2 stake_checkpoints_then_adds "alice" 0%Z 86400000%Z emptyWorld);
      [reflexivity | reflexivity | lia].
Defined.

(** What [/claim-rewards] does for a stored wallet whose document passes
    the validators once [rewards] is reset. *)
Lemma postClaimRewards_run (wallet : string) (w : World) (user : StakingUser) :
  truthy (trim wallet) = true → 0 ≤ stakedAmount user →
  stakingUsers w !! trim wallet = Some user →
  let live := rewards user
              + accrue (stakedAmount user)
                  (clock w 0%nat - lastStakedOrUnstaked user) STAKING_APR in
  postClaimRewards wallet w
  = if decide (live ≤ 0) then
      (Returned (mkResponse 400 (JMessage [Lit "No rewards to claim."])), tick w)
    else
      let claimed := mkStakingUser (stakedAmount user) 0 (clock w 1%nat) (clock w 2%nat) in
      (Returned (mkResponse 200
         (JMessageUser
            [Lit "Successfully claimed "; Lit (toFixed 2 live); Lit " AFOX rewards."]
            (trim wallet) claimed)),
       setStakingUsers (<[trim wallet := claimed]> (stakingUsers w)) (tick (tick (tick w)))).
Proof.
  intros Hwallet Hstaked Hfound live. unfold postClaimRewards.
  rewrite (truthy_trim _ Hwallet). cbn [negb].
  rewrite tryCatch_run, bind_run, findOne_run, Hfound.
  destruct user as [staked reward claimed changed].
  cbn [fmap option_fmap option_map]. rewrite bind_run, calculateRewards_run.
  cbn [stakedAmount rewards lastStakedOrUnstaked] in *. fold live.
  case_decide as Hlive.
  - by rewrite bool_decide_eq_true_2.
  - rewrite bool_decide_eq_false_2 by done.
    do 2 (rewrite bind_run, Date_now_run; cbn beta iota).
    rewrite bind_run, save_run.
    + reflexivity.
    + apply StakingUser_failures_nil. by repeat split.
    + cbn. by rewrite Hfound.
Qed.

Lemma storeValid_lookup (w : World) (wallet : string) (user : StakingUser) :
  storeValid w → stakingUsers w !! wallet = Some user →
  truthy wallet = true ∧ 0 ≤ stakedAmount user ∧ 0 ≤ rewards user.
Proof. intros Hw Hfound. by apply StakingUser_failures_nil, Hw. Qed.

Lemma stake_fresh_run (wallet : string) (amount : Qc) (t : Z) (w : World) :
  truthy (trim wallet) = true → 0 < amount → stakingUsers w !! trim wallet = None →
  stakingUsers (postStake wallet amount (atTime t w)).2
  = <[trim wallet := mkStakingUser amount 0 t t]> (stakingUsers w)
  ∧ succeeded (postStake wallet amount (atTime t w)).
Proof.
  intros Hwallet Hamount Hfresh.
  destruct (postStake_run wallet amount (atTime t w)) as (w' & Hs & _ & _ & Hrun).
  { apply stakeRejected_false; [by apply truthy_trim | done]. }
  rewrite Hrun. unfold stakedDocument.
  cbn [stakingUsers atTime clock]. rewrite Hfresh.
  replace (0 + amount) with amount by ring.
  rewrite decide_True.
  - cbn. rewrite Hs. split; [done | by eexists].
  - apply StakingUser_failures_nil. repeat split; [done | | done].
    by apply Qclt_le_weak.
Qed.


Lemma storeValid_insert (w w' : World) (wallet : string) (user : StakingUser) :
  storeValid w → StakingUser_failures wallet user = [] →
  stakingUsers w' = <[wallet := user]> (stakingUsers w) → storeValid w'.
Proof.
  intros Hw Huser Hw' wallet' user'. rewrite Hw', lookup_insert.
  case_decide as Hkey; [|apply Hw].
  intros [= <-]. by rewrite <- Hkey.
Qed.

Lemma storeValid_empty (w : World) : stakingUsers w = ∅ → storeValid w.
Proof. intros Hw wallet user. by rewrite Hw, lookup_empty. Qed.



Lemma shownStake_stored (wallet : string) (w : World) (user : StakingUser) :
  stakingUsers w !! trim wallet = Some user →
  shownStake (getStaking wallet w)
  = Some (stakedAmount user,
          rewards user
          + accrue (stakedAmount user)
              (clock w 0%nat - lastStakedOrUnstaked user) STAKING_APR).
Proof.
  intros Hfound. unfold getStaking.
  rewrite tryCatch_run, bind_run, findOne_run, Hfound.
  cbn [fmap option_fmap option_map]. by rewrite bind_run, calculateRewards_run.
Qed.

Lemma shownStake_unknown (wallet : string) (w : World) :
  stakingUsers w !! trim wallet = None →
  shownStake (getStaking wallet w) = Some (0, 0).
Proof.
  intros Hfound. unfold getStaking.
  by rewrite tryCatch_run, bind_run, findOne_run, Hfound.
Qed.



(** What [/unstake] does for a stored wallet. *)
Lemma postUnstake_run (wallet : string) (w : World) (user : StakingUser) :
  truthy (trim wallet) = true →
  stakingUsers w !! trim wallet = Some user →
  postUnstake wallet w
  = if decide (stakedAmount user ≤ 0) then
      (Returned (mkResponse 400 (JMessage [Lit "You have no AFOX staked."])), w)
    else
      let folded := rewards user
                    + accrue (stakedAmount user)
                        (clock w 0%nat - lastStakedOrUnstaked user) STAKING_APR in
      let emptied := mkStakingUser 0 0 (clock w 2%nat) (clock w 1%nat) in
      (Returned (mkResponse 200
         (JMessageUser
            [Lit "Successfully unstaked "; Lit (toFixed 2 (stakedAmount user + folded));
             Lit " AFOX."]
            (trim wallet) emptied)),
       setStakingUsers (<[trim wallet := emptied]> (stakingUsers w)) (tick (tick (tick w)))).
Proof.
  intros Hwallet Hfound. unfold postUnstake.
  rewrite (truthy_trim _ Hwallet). cbn [negb].
  rewrite tryCatch_run, bind_run, findOne_run, Hfound.
  destruct user as [staked reward claimed changed].
  cbn [fmap option_fmap option_map stakedAmount rewards lastStakedOrUnstaked].
  case_decide as Hstaked.
  - by rewrite bool_decide_eq_true_2.
  - rewrite bool_decide_eq_false_2 by done.
    rewrite bind_run, calculateRewards_run. cbn beta iota.
    do 2 (rewrite bind_run, Date_now_run; cbn beta iota).
    rewrite bind_run, save_run.
    + reflexivity.
    + apply StakingUser_failures_nil. by repeat split.
    + cbn. by rewrite Hfound.
Qed.




(** *** Stored documents stay valid *)

Lemma storeValid_same (w w' : World) :
  stakingUsers w' = stakingUsers w → storeValid w → storeValid w'.
Proof. intros Hsame Hw wallet user. rewrite Hsame. apply Hw. Qed.

Lemma save_stays_valid (user : StakingDoc) (w : World) :
  storeValid w → storeValid (StakingUser_save user w).2.
Proof.
  intros Hw. unfold StakingUser_save.
  destruct (StakingUser_failures _ _) eqn:Hvalid; [|exact Hw].
  unfold StakingUser_write.
  destruct (stakingIsNew user), (stakingUsers w !! walletAddress user);
    try exact Hw; by eapply storeValid_insert.
Qed.

Lemma postStake_stays_valid (wallet : string) (amount : Qc) (w : World) :
  storeValid w → storeValid (postStake wallet amount w).2.
Proof.
  intros Hw. unfold postStake. destruct (stakeRejected wallet amount); [exact Hw|].
  rewrite tryCatch_serverError_world, bind_run.
  destruct (stakeLoad_run wallet amount w) as (w' & -> & Hs & _).
  unfold stakeSave. rewrite then_json_world.
  by apply save_stays_valid, (storeValid_same w).
Qed.

Lemma postClaimRewards_stays_valid (wallet : string) (w : World) :
  storeValid w → storeValid (postClaimRewards wallet w).2.
Proof.
  intros Hw. unfold postClaimRewards. destruct (negb (truthy wallet)); [exact Hw|].
  rewrite tryCatch_serverError_world, bind_run, findOne_run.
  destruct (stakingUsers w !! trim wallet) as [[staked reward claimed changed]|];
    [|exact Hw].
  cbn [fmap option_fmap option_map]. rewrite bind_run, calculateRewards_run.
  cbn beta iota. case_bool_decide; [exact Hw|].
  do 2 (rewrite bind_run, Date_now_run; cbn beta iota).
  rewrite then_json_world. by apply save_stays_valid.
Qed.

Lemma postUnstake_stays_valid (wallet : string) (w : World) :
  storeValid w → storeValid (postUnstake wallet w).2.
Proof.
  intros Hw. unfold postUnstake. destruct (negb (truthy wallet)); [exact Hw|].
  rewrite tryCatch_serverError_world, bind_run, findOne_run.
  destruct (stakingUsers w !! trim wallet) as [[staked reward claimed changed]|];
    [|exact Hw].
  cbn [fmap option_fmap option_map]. case_bool_decide; [exact Hw|].
  rewrite bind_run, calculateRewards_run. cbn beta iota.
  do 2 (rewrite bind_run, Date_now_run; cbn beta iota).
  rewrite then_json_world. by apply save_stays_valid.
Qed.

(** C8. [GET /:walletAddress] changes neither collection; for a stored
    wallet it answers the stored [stakedAmount] and the live reward
    [rewards + accrue(stakedAmount, now - lastStakedOrUnstaked, APR)], for an
    unknown wallet the all-zero view, and no document is created. *)
Theorem query_is_a_pure_projection (wallet : string) (w : World) :
  let after := getStaking wallet w in
  stakingUsers after.2 = stakingUsers w
  ∧ daoProposals after.2 = daoProposals w
  ∧ answer after
    = Some (mkResponse 200
        match stakingUsers w !! trim wallet with
        | Some user =>
            JStaking (stakedAmount user)
              (rewards user
               + accrue (stakedAmount user)
                   (clock w 0%nat - lastStakedOrUnstaked user) STAKING_APR)
              (Some (lastClaimed user)) (Some (lastStakedOrUnstaked user))
        | None => JStaking 0 0 None None
        end).
Proof.
  unfold getStaking. rewrite tryCatch_run, bind_run, findOne_run.
  destruct (stakingUsers w !! trim wallet) as [user|]; cbn [fmap option_fmap option_map].
  - cbn [stakingFields]. rewrite bind_run, calculateRewards_run. cbn. done.
  - cbn. done.
Qed.

(** ** The DAO routes *)

Section DaoProperties.
Context `{Externals}.

Lemma findById_run (id : string) (w : World) :
  DaoProposal_findById id w
  = (Returned ((λ p, mkProposalDoc (Some p) (ObjectId_hex id) p)
                 <$> daoProposals w !! ObjectId_hex id), w).
Proof. reflexivity. Qed.

Lemma assigned_same {A : Type} `{EqDecision A} (loaded current : A) :
  assigned loaded current loaded = current.
Proof. unfold assigned. by case_decide. Qed.

(** When nothing was stored in between, sending the changes stores the
    document as the handler has it. *)
Lemma DaoProposal_changes_same (loaded current : DaoProposal) :
  (∃ pushed, voters current = voters loaded ++ pushed) →
  DaoProposal_changes loaded current loaded = current.
Proof.
  intros [pushed Hpushed]. destruct current as [t d c for_ against vs expires st].
  unfold DaoProposal_changes. cbn in *.
  rewrite !assigned_same. by rewrite Hpushed, drop_app_length.
Qed.

(** [save] either leaves the collection as it is, or stores a new document
    under its key, or applies the changes of a loaded one to what is stored
    under its key. *)
Lemma DaoProposal_save_effect (doc : ProposalDoc) (w : World) :
  daoProposals (DaoProposal_save doc w).2 = daoProposals w
  ∨ (proposalLoaded doc = None
     ∧ daoProposals (DaoProposal_save doc w).2
       = <[proposalKey doc := proposalFields doc]> (daoProposals w))
  ∨ (∃ loaded stored,
       proposalLoaded doc = Some loaded
       ∧ daoProposals w !! proposalKey doc = Some stored
       ∧ daoProposals (DaoProposal_save doc w).2
         = <[proposalKey doc := DaoProposal_changes loaded (proposalFields doc) stored]>
             (daoProposals w)).
Proof.
  unfold DaoProposal_save. rewrite bind_run, Date_now_run. cbn beta iota.
  destruct (DaoProposal_failures _ _); [|by left].
  unfold DaoProposal_write. cbn [daoProposals tick].
  destruct (proposalLoaded doc) as [loaded|],
           (daoProposals w !! proposalKey doc) as [stored|] eqn:Hstored;
    cbn; eauto 10.
Qed.

(** The same for a document that is saved as it was loaded from the
    collection, with the changes a handler makes. *)
Lemma DaoProposal_update_effect (id : string) (p current : DaoProposal) (w : World) :
  daoProposals w !! id = Some p →
  (∃ pushed, voters current = voters p ++ pushed) →
  daoProposals (DaoProposal_save (mkProposalDoc (Some p) id current) w).2 = daoProposals w
  ∨ daoProposals (DaoProposal_save (mkProposalDoc (Some p) id current) w).2
    = <[id := current]> (daoProposals w).
Proof.
  intros Hfound Hpushed.
  destruct (DaoProposal_save_effect (mkProposalDoc (Some p) id current) w)
    as [Hsame | [[Hnew _] | (loaded & stored & Hloaded & Hstored & Hsaved)]];
    [by left | discriminate Hnew |].
  cbn in Hloaded, Hstored, Hsaved. injection Hloaded as <-.
  rewrite Hfound in Hstored. injection Hstored as <-.
  right. by rewrite Hsaved, DaoProposal_changes_same.
Qed.

Lemma DaoProposal_save_expired (doc : ProposalDoc) (w : World) :
  (expiresAt (proposalFields doc) ≤ clock w 0%nat)%Z →
  ∃ failures,
    DaoProposal_save doc w = (Thrown (ValidationError failures), tick w).
Proof.
  intros Hexpired. unfold DaoProposal_save. rewrite bind_run, Date_now_run.
  cbn beta iota.
  destruct (DaoProposal_failures _ _) as [|failure failures] eqn:Hfailures.
  - exfalso. unfold DaoProposal_failures in Hfailures.
    rewrite (bool_decide_eq_false_2 (clock w 0%nat < _)%Z) in Hfailures by lia.
    repeat (apply app_eq_nil in Hfailures; destruct Hfailures as [_ Hfailures]).
    discriminate.
  - by eexists.
Qed.







Lemma voteAdmitted_true (proposalId voteType voterWallet : string) :
  voteAdmitted proposalId voteType voterWallet = true →
  (negb (truthy proposalId) || negb (truthy voteType) || negb (truthy voterWallet)) = false
  ∧ negb (ObjectId_isValid proposalId) = false
  ∧ negb (PublicKey_parses voterWallet) = false
  ∧ negb (bool_decide (voteType ∈ ["for"; "against"])) = false.
Proof.
  unfold voteAdmitted. rewrite !andb_true_iff.
  intros (((((-> & ->) & ->) & ->) & ->) & ->). done.
Qed.

Lemma voteRefused_admitted (proposalId voteType voterWallet : string) :
  voteAdmitted proposalId voteType voterWallet = true →
  voteRefused proposalId voteType voterWallet = None.
Proof.
  intros (G1 & G2 & G3 & G4)%voteAdmitted_true. unfold voteRefused.
  by rewrite G1, G2, G3, G4.
Qed.

(** Whatever the request and the clock, [/vote] leaves the collection as
    it is or rewrites the one proposal it was asked about: marked
    [completed] when its deadline has passed, with one more vote of a wallet
    not yet listed when it has not. *)
Lemma postVote_effect (proposalId voteType voterWallet : string) (w : World) :
  let after := postVote proposalId voteType voterWallet w in
  let key := ObjectId_hex proposalId in
  daoProposals after.2 = daoProposals w
  ∨ ∃ p, daoProposals w !! key = Some p
      ∧ (((expiresAt p ≤ clock w 0%nat)%Z ∧ status p = active
          ∧ daoProposals after.2 = <[key := closed p]> (daoProposals w))
         ∨ ((clock w 0%nat < expiresAt p)%Z ∧ (voterWallet ∉ voters p)
            ∧ ∃ forVote,
                daoProposals after.2
                = <[key := withVote forVote voterWallet p]> (daoProposals w))).
Proof.
  cbn zeta. unfold postVote.
  destruct (voteRefused proposalId voteType voterWallet); [by left|].
  unfold voteFailed, json. rewrite tryCatch_json_world.
  rewrite bind_run, findById_run.
  destruct (daoProposals w !! ObjectId_hex proposalId) as [p|] eqn:Hfound; [|by left].
  destruct p as [t d c for_ against vs expires st].
  cbn [fmap option_fmap option_map]. unfold voteFinish.
  rewrite bind_run, Date_now_run. cbn beta iota.
  case_bool_decide as Hexpired.
  - fold (json 400 (JMessage [Lit "Voting for this proposal has already ended."])).
    rewrite then_json_world. case_bool_decide as Hactive; [|by left].
    match goal with
    | |- context [DaoProposal_save (mkProposalDoc (Some ?p) ?id ?current) ?w'] =>
        destruct (DaoProposal_update_effect id p current w') as [-> | ->];
          [exact Hfound | exists []; cbn; by rewrite app_nil_r | by left |]
    end.
    right. eexists. split; [done|]. left. by subst st.
  - case_bool_decide as Hvoted; [by left|].
    assert (Hopen : (clock w 0%nat < expires)%Z) by lia.
    case_bool_decide;
      match goal with
      | |- context [JMessageProposal ?m ?i ?q] =>
          fold (json 200 (JMessageProposal m i q))
      end;
      rewrite then_json_world;
      match goal with
      | |- context [DaoProposal_save (mkProposalDoc (Some ?p) ?id ?current) ?w'] =>
          destruct (DaoProposal_update_effect id p current w') as [-> | ->];
            [exact Hfound | by exists [voterWallet] | by left |]
      end;
      right; eexists; (split; [done|]); right; (split; [done|]); (split; [done|]).
    + by exists true.
    + by exists false.
Qed.


(** X24. No request to [/vote] moves a proposal from [completed] back to
    [active]. *)
Lemma completed_stays_completed
    (proposalId voteType voterWallet id : string) (w : World) (q : DaoProposal) :
  daoProposals w !! id = Some q → status q = completed →
  ∃ q', daoProposals (postVote proposalId voteType voterWallet w).2 !! id = Some q'
        ∧ status q' = completed.
Proof.
  intros Hq Hcompleted.
  destruct (postVote_effect proposalId voteType voterWallet w)
    as [-> | (p & Hfound & [(_ & _ & ->) | (_ & _ & forVote & ->)])];
    [by exists q | |];
    (rewrite lookup_insert; case_decide as Hid; [subst id | by exists q]).
  - by eexists.
  - eexists. split; [done|]. cbn. congruence.
Qed.

(** X23. No request to [/vote] changes the counters or the voters of a
    proposal whose deadline the clock has reached. *)
Lemma expired_proposal_keeps_its_votes
    (proposalId voteType voterWallet id : string) (w : World) (q : DaoProposal) :
  daoProposals w !! id = Some q → (expiresAt q ≤ clock w 0%nat)%Z →
  ∃ q', daoProposals (postVote proposalId voteType voterWallet w).2 !! id = Some q'
        ∧ votesFor q' = votesFor q ∧ votesAgainst q' = votesAgainst q
        ∧ voters q' = voters q.
Proof.
  intros Hq Hexpired.
  destruct (postVote_effect proposalId voteType voterWallet w)
    as [-> | (p & Hfound & [(_ & _ & ->) | (Hopen & _ & forVote & ->)])];
    [by exists q | |];
    (rewrite lookup_insert; case_decide as Hid; [subst id | by exists q]).
  - rewrite Hq in Hfound. injection Hfound as <-. by eexists.
  - rewrite Hq in Hfound. injection Hfound as <-. lia.
Qed.



(** An admitted vote on an active proposal whose deadline has passed: the
    handler tries to store [status = completed], the validator of
    [expiresAt] refuses the document, and the route answers 500. *)
Lemma postVote_expired_active
    (proposalId voteType voterWallet : string) (w : World) (p : DaoProposal) :
  voteAdmitted proposalId voteType voterWallet = true →
  daoProposals w !! ObjectId_hex proposalId = Some p → status p = active →
  (expiresAt p ≤ clock w 0%nat)%Z → (expiresAt p ≤ clock w 1%nat)%Z →
  postVote proposalId voteType voterWallet w
  = (Returned (mkResponse 500 (JMessage
       [Lit "Failed to cast vote due to an unexpected server error. Please try again later."])),
     tick (tick w)).
Proof.
  intros (G1 & G2 & G3 & G4)%voteAdmitted_true Hfound Hactive Hexpired Hstill.
  unfold postVote, voteRefused.
  rewrite G1, G2, G3, G4, tryCatch_run, bind_run, findById_run, Hfound.
  destruct p as [t d c for_ against vs expires st]. cbn in Hactive, Hexpired, Hstill.
  subst st.
  cbn [fmap option_fmap option_map]. unfold voteFinish.
  rewrite bind_run, Date_now_run. cbn beta iota.
  rewrite bool_decide_eq_true_2 by lia.
  rewrite bool_decide_eq_true_2 by done.
  rewrite bind_run.
  match goal with
  | |- context [DaoProposal_save ?doc ?w'] =>
      destruct (DaoProposal_save_expired doc w') as (failures & ->); [exact Hstill|]
  end.
  reflexivity.
Qed.

Lemma postVote_expired_completed
    (proposalId voteType voterWallet : string) (w : World) (p : DaoProposal) :
  voteAdmitted proposalId voteType voterWallet = true →
  daoProposals w !! ObjectId_hex proposalId = Some p → status p = completed →
  (expiresAt p ≤ clock w 0%nat)%Z →
  postVote proposalId voteType voterWallet w
  = (Returned (mkResponse 400 (JMessage
       [Lit "Voting for this proposal has already ended."])),
     tick w).
Proof.
  intros (G1 & G2 & G3 & G4)%voteAdmitted_true Hfound Hcompleted Hexpired.
  unfold postVote, voteRefused.
  rewrite G1, G2, G3, G4, tryCatch_run, bind_run, findById_run, Hfound.
  destruct p as [t d c for_ against vs expires st]. cbn in Hcompleted, Hexpired.
  subst st.
  cbn [fmap option_fmap option_map]. unfold voteFinish.
  rewrite bind_run, Date_now_run. cbn beta iota.
  rewrite bool_decide_eq_true_2 by lia.
  by rewrite bool_decide_eq_false_2.
Qed.

(** Resuming a vote twice in a row is serving it alone: the worlds of
    [daoReachable] are those of the schedules in which every request
    completes before the next starts. *)
Lemma resumeVote_twice (proposalId voteType voterWallet : string) (w : World) :
  (t ← resumeVote (VoteArrived proposalId voteType voterWallet); resumeVote t) w
  = (VoteAnswered <$> postVote proposalId voteType voterWallet) w.
Proof.
  rewrite bind_run, fmap_run. unfold resumeVote at 1, postVote.
  destruct (voteRefused proposalId voteType voterWallet); [reflexivity|].
  rewrite !tryCatch_run, fmap_run, bind_run, findById_run.
  cbn beta iota. unfold resumeVote. rewrite tryCatch_run, fmap_run.
  by destruct (voteFinish _ _ _ w) as [[res|e] w'].
Qed.


(** C4, as the code has it. An admitted vote on a proposal whose deadline
    has passed changes nothing in the collection. If the proposal is still
    [active], the attempt to store [status = completed] is refused by the
    validator of [expiresAt] (which wants a date in the future), so the
    route answers 500 and the proposal stays [active]; only a proposal that
    is already [completed] gets the answer 400 "Voting ... has already
    ended". *)
Theorem expired_vote_never_completes
    (proposalId voteType voterWallet : string) (w : World) (p : DaoProposal) :
  voteAdmitted proposalId voteType voterWallet = true →
  daoProposals w !! ObjectId_hex proposalId = Some p →
  (expiresAt p ≤ clock w 0%nat)%Z → (clock w 0%nat ≤ clock w 1%nat)%Z →
  let after := postVote proposalId voteType voterWallet w in
  daoProposals after.2 = daoProposals w
  ∧ answer after
    = Some (match status p with
            | active =>
                mkResponse 500 (JMessage
                  [Lit "Failed to cast vote due to an unexpected server error. Please try again later."])
            | completed =>
                mkResponse 400 (JMessage
                  [Lit "Voting for this proposal has already ended."])
            end).
Proof.
  intros Hadmitted Hfound Hexpired Hclock after. unfold after.
  destruct (status p) eqn:Hstatus.
  - rewrite (postVote_expired_active _ _ _ w p) by (done || lia). done.
  - rewrite (postVote_expired_completed _ _ _ w p) by done. done.
Qed.

(** C9 (amended). [/vote] and [/proposals] refuse a wallet string that is
    not a well-formed public key with status 400 before they read or write
    anything. The three staking routes make no check of the format: an empty
    address is refused with 400, and any other address is trimmed and used
    as the key, as it is. For a non-empty address without a document,
    whatever its format, [/claim-rewards] and [/unstake] answer 404, and
    [/stake] with a positive amount is answered 200 and stores a document
    under the trimmed address, unless that is blank, which the [required]
    validator of the schema refuses (500, nothing stored). *)
Theorem wallet_format_is_checked_by_dao_routes
    (proposalId voteType title description wallet : string) (amount : Qc) (w : World) :
  (PublicKey_parses wallet = false →
   (∃ m, postVote proposalId voteType wallet w
         = (Returned (mkResponse 400 (JMessage m)), w))
   ∧ (∃ m, postProposals title description wallet w
           = (Returned (mkResponse 400 (JMessage m)), w)))
  ∧ ((∃ m, postStake "" amount w = (Returned (mkResponse 400 (JMessage m)), w))
     ∧ (∃ m, postClaimRewards "" w = (Returned (mkResponse 400 (JMessage m)), w))
     ∧ (∃ m, postUnstake "" w = (Returned (mkResponse 400 (JMessage m)), w)))
  ∧ (truthy wallet = true → stakingUsers w !! trim wallet = None →
     postClaimRewards wallet w
     = (Returned (mkResponse 404 (JMessage [Lit "Staking user not found."])), w)
     ∧ postUnstake wallet w
       = (Returned (mkResponse 404 (JMessage [Lit "Staking user not found."])), w)
     ∧ (0 < amount →
        let user := mkStakingUser amount 0 (clock w 0%nat) (clock w 2%nat) in
        if truthy (trim wallet) then
          answer (postStake wallet amount w)
          = Some (mkResponse 200
              (JMessageUser [Lit "Staking successful."] (trim wallet) user))
          ∧ stakingUsers (postStake wallet amount w).2
            = <[trim wallet := user]> (stakingUsers w)
        else
          answer (postStake wallet amount w)
          = Some (mkResponse 500 (JMessage
              [ErrMessage (ValidationError [("walletAddress", "required")])]))
          ∧ stakingUsers (postStake wallet amount w).2 = stakingUsers w)).
Proof.
  split; [|split].
  - intros Hwallet. split.
    + unfold postVote, voteRefused. rewrite Hwallet.
      destruct (negb (truthy proposalId) || _ || _); [by eexists|].
      destruct (negb (ObjectId_isValid proposalId)); by eexists.
    + unfold postProposals. rewrite Hwallet.
      destruct (negb (truthy title) || _ || _); by eexists.
  - repeat split; by eexists.
  - intros Hwallet Hfresh.
    split; [|split].
    + unfold postClaimRewards. rewrite Hwallet. cbn [negb].
      by rewrite tryCatch_run, bind_run, findOne_run, Hfresh.
    + unfold postUnstake. rewrite Hwallet. cbn [negb].
      by rewrite tryCatch_run, bind_run, findOne_run, Hfresh.
    + intros Hamount user.
      destruct (postStake_run wallet amount w) as (w' & Hs & _ & _ & ->).
      { by apply stakeRejected_false. }
      unfold stakedDocument. rewrite Hfresh, Qcplus_0_l. fold user.
      assert (Hstaked : 0 ≤ amount) by (by apply Qclt_le_weak).
      unfold StakingUser_failures. cbn [stakedAmount rewards user].
      rewrite !bool_decide_eq_true_2 by done.
      destruct (truthy (trim wallet)).
      * rewrite decide_True by done. cbn. by rewrite Hs.
      * rewrite decide_False by done. done.
Qed.

End DaoProperties.



Lemma expired_vote_never_completes_witness :
  let after := @postVote sampleExternals sampleId "against" walletW2
                 (atTime (8 * day) votedOnce) in
  daoProposals after.2 = daoProposals (atTime (8 * day) votedOnce)
  ∧ answer after
    = Some (mkResponse 500 (JMessage
        [Lit "Failed to cast vote due to an unexpected server error. Please try again later."])).
Proof.
  apply (@expired_vote_never_completes sampleExternals sampleId "against" walletW2
           (atTime (8 * day) votedOnce)
           (mkDaoProposal "Fund the park" "Spend the treasury surplus on the park."
              walletW1 1 0 [walletW1] (7 * day) active)).
  - reflexivity.
  - vm_compute. reflexivity.
  - vm_compute. discriminate.
  - vm_compute. discriminate.
Defined.

(** The scenario of the specification, run to its end: eight days after
    the creation the vote of [walletW2] is answered 500 and the stored
    proposal is as [walletW1] left it, still [active]. *)
Example vote_after_eight_days :
  let after := @postVote sampleExternals sampleId "against" walletW2
                 (atTime (8 * day) votedOnce) in
  answer after
  = Some (mkResponse 500 (JMessage
      [Lit "Failed to cast vote due to an unexpected server error. Please try again later."]))
  ∧ daoProposals after.2 !! sampleId
    = Some (mkDaoProposal "Fund the park" "Spend the treasury surplus on the park."
              walletW1 1 0 [walletW1] (7 * day) active).
Proof. split; vm_compute; reflexivity. Qed.

Lemma wallet_format_is_checked_by_dao_routes_witness :
  (∃ m, @postVote sampleExternals sampleId "for" "not a wallet!" votedOnce
        = (Returned (mkResponse 400 (JMessage m)), votedOnce))
  ∧ postClaimRewards "not a wallet!" votedOnce
    = (Returned (mkResponse 404 (JMessage [Lit "Staking user not found."])), votedOnce)
  ∧ answer (postStake "not a wallet!" 1 votedOnce)
    = Some (mkResponse 200
        (JMessageUser [Lit "Staking successful."] "not a wallet!"
           (mkStakingUser 1 0 (clock votedOnce 0%nat) (clock votedOnce 2%nat)))).
Proof.
  pose proof (@wallet_format_is_checked_by_dao_routes sampleExternals
                sampleId "for" "title" "description" "not a wallet!" 1 votedOnce)
    as (Hdao & _ & Hstaking).
  destruct (Hdao eq_refl) as [Hvote _].
  destruct (Hstaking eq_refl eq_refl) as (Hclaim & _ & Hstake).
  destruct (Hstake eq_refl) as [Hanswer _].
  split; [exact Hvote|]. split; [exact Hclaim | exact Hanswer].
Defined.

(** C9, as stated, fails for [Stake]: a string that is no wallet address
    at all is accepted and gets a document. *)
Lemma stake_accepts_a_malformed_wallet :
  solanaAddressRegex "not a wallet!" = false
  ∧ answer (postStake "not a wallet!" 1 emptyWorld)
    = Some (mkResponse 200
        (JMessageUser [Lit "Staking successful."] "not a wallet!" (mkStakingUser 1 0 0 0)))
  ∧ stakingUsers (postStake "not a wallet!" 1 emptyWorld).2 !! "not a wallet!"
    = Some (mkStakingUser 1 0 0 0).
Proof.
  split; [reflexivity|].
  destruct (postStake_run "not a wallet!" 1 emptyWorld eq_refl) as (w' & Hs & _ & _ & Hrun).
  rewrite Hrun. unfold stakedDocument. cbn [stakingUsers emptyWorld clock].
  rewrite lookup_empty.
  replace (0 + 1) with 1 by (by apply Qc_is_canon).
  rewrite decide_True by reflexivity.
  cbn. by rewrite lookup_insert_eq.
Qed.

(** ** Requests in flight *)

(** Resuming a request twice in a row is serving it alone. *)
Lemma resume_twice (wallet : string) (amount : Qc) (w : World) :
  (t ← resume (Arrived wallet amount); resume t) w
  = (Answered <$> postStake wallet amount) w.
Proof.
  rewrite bind_run, fmap_run. unfold resume at 1, postStake.
  destruct (stakeRejected wallet amount); [reflexivity|].
  rewrite !tryCatch_run, fmap_run, bind_run.
  destruct (stakeLoad_run wallet amount w) as (w' & -> & _).
  cbn beta iota. unfold resume. rewrite tryCatch_run, fmap_run.
  by destruct (stakeSave _ w') as [[res|e] w''].
Qed.

Lemma runSchedule_serve (k : nat) (rest : list nat) (pool : list InFlight)
    (wallet : string) (amount : Qc) (w : World) :
  pool !! k = Some (Arrived wallet amount) →
  runSchedule (k :: k :: rest) pool w
  = match postStake wallet amount w with
    | (Returned res, w') => runSchedule rest (<[k := Answered res]> pool) w'
    | (Thrown e, w') => (Thrown e, w')
    end.
Proof.
  intros Hk. pose proof (resume_twice wallet amount w) as Htwice.
  rewrite bind_run, fmap_run in Htwice.
  cbn [runSchedule]. rewrite Hk, bind_run.
  destruct (resume (Arrived wallet amount) w) as [[t|e] w1].
  - cbn [runSchedule].
    rewrite list_lookup_insert_eq by (by eapply lookup_lt_Some).
    rewrite bind_run, Htwice.
    destruct (postStake wallet amount w) as [[res|e] w2]; [|done].
    by rewrite list_insert_insert_eq.
  - destruct (postStake wallet amount w) as [[res|e'] w2];
      [discriminate Htwice | by injection Htwice as -> ->].
Qed.

Lemma monotoneClock_le (w : World) (i j : nat) :
  monotoneClock w → (i ≤ j)%nat → (clock w i ≤ clock w j)%Z.
Proof.
  intros Hw. induction 1 as [|j _ IH]; [lia|].
  specialize (Hw j). lia.
Qed.

Lemma Qc_of_Z_nonneg (n : Z) : (0 ≤ n)%Z → 0 ≤ Qc_of_Z n.
Proof.
  intros Hn. rewrite <- Z2Qc_inj_0. exact (proj1 (Z2Qc_inj_le 0 n) Hn).
Qed.

Lemma stakedTimes_step (j : nat) (wallet : string) (w : World) :
  truthy (trim wallet) = true → stakedTimes j wallet w →
  ∃ res w', postStake wallet 1 w = (Returned res, w')
            ∧ statusCode res = 200%Z ∧ stakedTimes (S j) wallet w'.
Proof.
  intros Hwallet [Hclock Hj].
  destruct (postStake_run wallet 1 w) as (w' & Hs & _ & (k & Hk & Hshift) & Hrun).
  { apply stakeRejected_false; [by apply truthy_trim | done]. }
  assert (Hclock' : ∀ x, monotoneClock (setStakingUsers x w')).
  { intros x n. cbn. rewrite !Hshift. apply Hclock. }
  assert (Hlater : ∀ i, (i ≤ 2)%nat → (clock w i ≤ clock w' 0%nat)%Z).
  { intros i Hi. rewrite Hshift. apply monotoneClock_le; [done | lia]. }
  rewrite Hrun. unfold stakedDocument. destruct j as [|j].
  - rewrite Hj. replace (0 + 1) with (Qc_of_Z (Z.of_nat 1)) by (by apply Qc_is_canon).
    rewrite decide_True by (by apply StakingUser_failures_nil).
    do 2 eexists. split; [done|]. split; [done|]. split; [apply Hclock'|].
    eexists. cbn. rewrite lookup_insert_eq. split; [reflexivity|]. cbn.
    split; [done|]. split; [done|]. apply Hlater. lia.
  - destruct Hj as (user & -> & Hstaked & Hreward & Hlast).
    assert (Hsum : stakedAmount user + 1 = Qc_of_Z (Z.of_nat (S (S j)))).
    { rewrite Hstaked, <- Z2Qc_inj_1, <- Z2Qc_inj_add. f_equal. lia. }
    assert (Hfolded : 0 ≤ rewards user
              + accrue (stakedAmount user)
                  (clock w 0%nat - lastStakedOrUnstaked user) STAKING_APR).
    { apply Qcplus_nonneg_nonneg; [done|].
      apply accrue_nonneg; [|apply STAKING_APR_nonneg | lia].
      rewrite Hstaked. apply Qc_of_Z_nonneg. lia. }
    rewrite decide_True.
    + do 2 eexists. split; [done|]. split; [done|]. split; [apply Hclock'|].
      eexists. cbn. rewrite lookup_insert_eq. split; [reflexivity|]. cbn.
      split; [exact Hsum|]. split; [exact Hfolded|]. apply Hlater. lia.
    + apply StakingUser_failures_nil. repeat split; [done | | done].
      cbn. rewrite Hsum. apply Qc_of_Z_nonneg. lia.
Qed.

Lemma serial_run (n : nat) : ∀ (k j : nat) (pool : list InFlight) (wallet : string) (w : World),
  truthy (trim wallet) = true → stakedTimes j wallet w →
  (∀ i, (k ≤ i < k + n)%nat → pool !! i = Some (Arrived wallet 1)) →
  ∃ pool' w', runSchedule (serial k n) pool w = (Returned pool', w')
    ∧ stakedTimes (j + n) wallet w'
    ∧ (∀ i, (k ≤ i < k + n)%nat →
         ∃ res, pool' !! i = Some (Answered res) ∧ statusCode res = 200%Z)
    ∧ (∀ i, (i < k)%nat → pool' !! i = pool !! i).
Proof.
  induction n as [|n IH]; intros k j pool wallet w Hwallet Hj Hpool.
  - exists pool, w. rewrite Nat.add_0_r.
    split; [reflexivity|]. split; [exact Hj|]. split; [|done].
    intros i Hi. lia.
  - cbn [serial]. rewrite (runSchedule_serve k _ pool wallet 1) by (apply Hpool; lia).
    destruct (stakedTimes_step j wallet w Hwallet Hj) as (res & w1 & -> & Hcode & Hj').
    destruct (IH (S k) (S j) (<[k := Answered res]> pool) wallet w1 Hwallet Hj')
      as (pool' & w' & Hrun & Hdone & Hanswers & Hbefore).
    { intros i Hi. rewrite list_lookup_insert_ne by lia. apply Hpool. lia. }
    exists pool', w'. split; [done|]. split; [by rewrite <- Nat.add_succ_comm|].
    split.
    + intros i Hi. destruct (decide (i = k)) as [->|Hne].
      * rewrite Hbefore by lia.
        rewrite list_lookup_insert_eq by (eapply lookup_lt_Some, Hpool; lia).
        by exists res.
      * apply Hanswers. lia.
    + intros i Hi. rewrite Hbefore by lia. by rewrite list_lookup_insert_ne by lia.
Qed.

(** C10 (amended). The route holds no lock and checks no version between
    its [findOne] and its [save]. When [n] requests [Stake(wallet, 1)] for a
    wallet without a document are served one after the other, under a clock
    that never runs backwards, every one is answered 200 and the document
    ends with [stakedAmount = n]. *)
Theorem serial_stakes_lose_nothing (n : nat) (wallet : string) (w : World) :
  truthy (trim wallet) = true → stakingUsers w !! trim wallet = None →
  monotoneClock w →
  ∃ pool w',
    runSchedule (serial 0 n) (arrivals n wallet) w = (Returned pool, w')
    ∧ (∀ i, (i < n)%nat →
         ∃ res, pool !! i = Some (Answered res) ∧ statusCode res = 200%Z)
    ∧ ((0 < n)%nat →
         ∃ user, stakingUsers w' !! trim wallet = Some user
                 ∧ stakedAmount user = Qc_of_Z (Z.of_nat n)).
Proof.
  intros Hwallet Hfresh Hclock.
  destruct (serial_run n 0 0 (arrivals n wallet) wallet w Hwallet) as
    (pool & w' & Hrun & [_ Hdone] & Hanswers & _).
  { by split. }
  { intros i Hi. apply lookup_replicate_2. lia. }
  exists pool, w'. split; [done|]. split.
  - intros i Hi. apply Hanswers. lia.
  - intros Hn. cbn [Nat.add] in Hdone. destruct n as [|n]; [lia|].
    destruct Hdone as (user & Hfound & Hstaked & _). by exists user.
Qed.

Lemma serial_stakes_lose_nothing_witness :
  ∃ pool w',
    runSchedule (serial 0 3) (arrivals 3 "alice") emptyWorld = (Returned pool, w')
    ∧ (∀ i, (i < 3)%nat →
         ∃ res, pool !! i = Some (Answered res) ∧ statusCode res = 200%Z)
    ∧ ((0 < 3)%nat →
         ∃ user, stakingUsers w' !! trim "alice" = Some user
                 ∧ stakedAmount user = Qc_of_Z (Z.of_nat 3)).
Proof.
  apply (serial_stakes_lose_nothing 3 "alice" emptyWorld).
  - reflexivity.
  - reflexivity.
  - intros n. simpl. lia.
Defined.

(** C10, as stated, fails. Two requests [Stake(alice, 1)] whose [findOne]
    both run before either [save]: on a wallet without a document the second
    [save] hits the unique index, its request is answered 500, and the
    document ends with [stakedAmount = 1]; on a wallet that already has a
    document both requests are answered 200 and one increment is lost. *)
Lemma interleaved_stakes_lose_an_update :
  (let after := runSchedule [0; 1; 0; 1]%nat (arrivals 2 "alice") emptyWorld in
   statusesOf after.1 = [Some 200%Z; Some 500%Z]
   ∧ stakedAmount <$> stakingUsers after.2 !! "alice" = Some 1
   ∧ Qc_of_Z 2 ≠ 1)
  ∧ (let once := (postStake "alice" 1 emptyWorld).2 in
     let after := runSchedule [0; 1; 0; 1]%nat (arrivals 2 "alice") once in
     stakedAmount <$> stakingUsers once !! "alice" = Some 1
     ∧ statusesOf after.1 = [Some 200%Z; Some 200%Z]
     ∧ stakedAmount <$> stakingUsers after.2 !! "alice" = Some (Qc_of_Z 2)
     ∧ Qc_of_Z 3 ≠ Qc_of_Z 2).
Proof.
  split; cbn zeta; repeat split; try decided; by vm_compute.
Qed.

(** * Further properties of the staking routes *)

(** ** What a route can do to the collections *)

Lemma staking_save_effect (user : StakingDoc) (w : World) :
  daoProposals (StakingUser_save user w).2 = daoProposals w
  ∧ (stakingUsers (StakingUser_save user w).2 = stakingUsers w
     ∨ stakingUsers (StakingUser_save user w).2
       = <[walletAddress user := stakingFields user]> (stakingUsers w)).
Proof.
  unfold StakingUser_save.
  destruct (StakingUser_failures _ _); [|by auto].
  unfold StakingUser_write.
  destruct (stakingIsNew user), (stakingUsers w !! walletAddress user); cbn; auto.
Qed.

Lemma staking_save_cases (user : StakingDoc) (w : World) :
  (∃ w', StakingUser_save user w = (Returned (), w'))
  ∨ (∃ e, StakingUser_save user w = (Thrown e, w)).
Proof.
  unfold StakingUser_save.
  destruct (StakingUser_failures _ _); [|right; by eexists].
  unfold StakingUser_write.
  destruct (stakingIsNew user), (stakingUsers w !! walletAddress user);
    (left + right); by eexists.
Qed.

Lemma touchesOnly_refl (wallet : string) (w w' : World) :
  stakingUsers w' = stakingUsers w → daoProposals w' = daoProposals w →
  touchesOnly wallet w w'.
Proof. intros Hs Hd. split; [done | by left]. Qed.

Lemma touchesOnly_save (wallet : string) (isNew : bool) (user : StakingUser)
    (w w' : World) :
  stakingUsers w' = stakingUsers w → daoProposals w' = daoProposals w →
  touchesOnly wallet w
    (StakingUser_save (mkStakingDoc isNew (trim wallet) user) w').2.
Proof.
  intros Hs Hd.
  destruct (staking_save_effect (mkStakingDoc isNew (trim wallet) user) w')
    as (Hd' & [Hs' | Hs']); split; try congruence.
  - left. congruence.
  - right. exists user. cbn in Hs'. congruence.
Qed.

Lemma postStake_touches (wallet : string) (amount : Qc) (w : World) :
  touchesOnly wallet w (postStake wallet amount w).2.
Proof.
  unfold postStake. destruct (stakeRejected wallet amount); [by apply touchesOnly_refl|].
  rewrite tryCatch_serverError_world, bind_run.
  destruct (stakeLoad_run wallet amount w) as (w' & -> & Hs & Hd & _).
  unfold stakeSave. rewrite then_json_world.
  by apply touchesOnly_save.
Qed.

Lemma postClaimRewards_touches (wallet : string) (w : World) :
  touchesOnly wallet w (postClaimRewards wallet w).2.
Proof.
  unfold postClaimRewards.
  destruct (negb (truthy wallet)); [by apply touchesOnly_refl|].
  rewrite tryCatch_serverError_world, bind_run, findOne_run.
  destruct (stakingUsers w !! trim wallet) as [[staked reward claimed changed]|];
    [|by apply touchesOnly_refl].
  cbn [fmap option_fmap option_map]. rewrite bind_run, calculateRewards_run.
  cbn beta iota. case_bool_decide; [by apply touchesOnly_refl|].
  do 2 (rewrite bind_run, Date_now_run; cbn beta iota).
  rewrite then_json_world. by apply touchesOnly_save.
Qed.

Lemma postUnstake_touches (wallet : string) (w : World) :
  touchesOnly wallet w (postUnstake wallet w).2.
Proof.
  unfold postUnstake.
  destruct (negb (truthy wallet)); [by apply touchesOnly_refl|].
  rewrite tryCatch_serverError_world, bind_run, findOne_run.
  destruct (stakingUsers w !! trim wallet) as [[staked reward claimed changed]|];
    [|by apply touchesOnly_refl].
  cbn [fmap option_fmap option_map]. case_bool_decide; [by apply touchesOnly_refl|].
  rewrite bind_run, calculateRewards_run. cbn beta iota.
  do 2 (rewrite bind_run, Date_now_run; cbn beta iota).
  rewrite then_json_world. by apply touchesOnly_save.
Qed.

(** X1. A staking route changes nothing but the document of the wallet it
    serves: every other wallet's document and the whole DAO collection are
    as they were, whatever the request and the clock. *)
Theorem staking_routes_touch_one_wallet
    (wallet other : string) (amount : Qc) (w : World) :
  other ≠ trim wallet →
  (stakingUsers (postStake wallet amount w).2 !! other = stakingUsers w !! other
   ∧ daoProposals (postStake wallet amount w).2 = daoProposals w)
  ∧ (stakingUsers (postClaimRewards wallet w).2 !! other = stakingUsers w !! other
     ∧ daoProposals (postClaimRewards wallet w).2 = daoProposals w)
  ∧ (stakingUsers (postUnstake wallet w).2 !! other = stakingUsers w !! other
     ∧ daoProposals (postUnstake wallet w).2 = daoProposals w).
Proof.
  intros Hother.
  assert (Hframe : ∀ w', touchesOnly wallet w w' →
            stakingUsers w' !! other = stakingUsers w !! other
            ∧ daoProposals w' = daoProposals w).
  { intros w' [Hd [-> | [user ->]]]; split; try done.
    by rewrite lookup_insert_ne. }
  split; [|split]; apply Hframe.
  - apply postStake_touches.
  - apply postClaimRewards_touches.
  - apply postUnstake_touches.
Qed.

Lemma staking_routes_touch_one_wallet_witness :
  stakingUsers (postUnstake "alice" (postStake "bob" 1 emptyWorld).2).2 !! "bob"
  = stakingUsers (postStake "bob" 1 emptyWorld).2 !! "bob".
Proof.
  apply (staking_routes_touch_one_wallet "alice" "bob" 1 (postStake "bob" 1 emptyWorld).2).
  discriminate.
Defined.

(** ** Answers *)

Lemma postStake_status (wallet : string) (amount : Qc) (w : World) :
  ∃ code, statusOf (postStake wallet amount w) = Some code
          ∧ code ∈ [200; 400; 500]%Z.
Proof.
  destruct (stakeRejected wallet amount) eqn:Hguard.
  - rewrite stakeRejected_true by done. exists 400%Z. split; [done | set_solver].
  - destruct (postStake_run wallet amount w Hguard) as (w' & _ & _ & _ & ->).
    case_decide.
    + exists 200%Z. split; [done | set_solver].
    + exists 500%Z. split; [done | set_solver].
Qed.

Lemma postClaimRewards_status (wallet : string) (w : World) :
  ∃ code, statusOf (postClaimRewards wallet w) = Some code
          ∧ code ∈ [200; 400; 404; 500]%Z.
Proof.
  unfold postClaimRewards.
  destruct (negb (truthy wallet)); [exists 400%Z; split; [done | set_solver]|].
  rewrite tryCatch_run, bind_run, findOne_run.
  destruct (stakingUsers w !! trim wallet) as [[staked reward claimed changed]|];
    [|exists 404%Z; split; [done | set_solver]].
  cbn [fmap option_fmap option_map]. rewrite bind_run, calculateRewards_run.
  cbn beta iota. case_bool_decide; [exists 400%Z; split; [done | set_solver]|].
  do 2 (rewrite bind_run, Date_now_run; cbn beta iota). rewrite bind_run.
  match goal with
  | |- context [StakingUser_save ?doc ?w'] =>
      destruct (staking_save_cases doc w') as [[w'' ->] | [e ->]]
  end.
  - exists 200%Z. split; [done | set_solver].
  - exists 500%Z. split; [done | set_solver].
Qed.

Lemma postUnstake_status (wallet : string) (w : World) :
  ∃ code, statusOf (postUnstake wallet w) = Some code
          ∧ code ∈ [200; 400; 404; 500]%Z.
Proof.
  unfold postUnstake.
  destruct (negb (truthy wallet)); [exists 400%Z; split; [done | set_solver]|].
  rewrite tryCatch_run, bind_run, findOne_run.
  destruct (stakingUsers w !! trim wallet) as [[staked reward claimed changed]|];
    [|exists 404%Z; split; [done | set_solver]].
  cbn [fmap option_fmap option_map].
  case_bool_decide; [exists 400%Z; split; [done | set_solver]|].
  rewrite bind_run, calculateRewards_run. cbn beta iota.
  do 2 (rewrite bind_run, Date_now_run; cbn beta iota). rewrite bind_run.
  match goal with
  | |- context [StakingUser_save ?doc ?w'] =>
      destruct (staking_save_cases doc w') as [[w'' ->] | [e ->]]
  end.
  - exists 200%Z. split; [done | set_solver].
  - exists 500%Z. split; [done | set_solver].
Qed.

Lemma getStaking_status (wallet : string) (w : World) :
  ∃ code, statusOf (getStaking wallet w) = Some code ∧ code ∈ [200; 500]%Z.
Proof.
  unfold getStaking. rewrite tryCatch_run, bind_run, findOne_run.
  exists 200%Z. split; [|set_solver].
  destruct (stakingUsers w !! trim wallet) as [user|]; [|done].
  cbn [fmap option_fmap option_map]. by rewrite bind_run, calculateRewards_run.
Qed.

(** X2. No exception escapes a staking handler: whatever the request, the
    clock and the collections, each route sends an answer, and its status
    code is one of those the route writes: 200 or 500 for [GET], 200, 400 or
    500 for [/stake], and 200, 400, 404 or 500 for [/claim-rewards] and
    [/unstake]. *)
Theorem staking_routes_always_answer (wallet : string) (amount : Qc) (w : World) :
  (∃ code, statusOf (getStaking wallet w) = Some code ∧ code ∈ [200; 500]%Z)
  ∧ (∃ code, statusOf (postStake wallet amount w) = Some code
             ∧ code ∈ [200; 400; 500]%Z)
  ∧ (∃ code, statusOf (postClaimRewards wallet w) = Some code
             ∧ code ∈ [200; 400; 404; 500]%Z)
  ∧ (∃ code, statusOf (postUnstake wallet w) = Some code
             ∧ code ∈ [200; 400; 404; 500]%Z).
Proof.
  split; [apply getStaking_status|].
  split; [apply postStake_status|].
  split; [apply postClaimRewards_status | apply postUnstake_status].
Qed.

(** ** Stored documents *)

Lemma resume_stays_valid (t : InFlight) (w : World) :
  storeValid w → storeValid (resume t w).2.
Proof.
  intros Hw. destruct t as [wallet amount | user | res]; cbn [resume]; [| |exact Hw].
  - destruct (stakeRejected wallet amount); [exact Hw|].
    rewrite tryCatch_run, fmap_run.
    destruct (stakeLoad_run wallet amount w) as (w' & -> & Hs & _).
    by apply (storeValid_same w).
  - rewrite tryCatch_run, fmap_run. unfold stakeSave. rewrite bind_run.
    pose proof (save_stays_valid user w Hw) as Hsave.
    by destruct (StakingUser_save user w) as [[[]|e] w'].
Qed.

Lemma runSchedule_stays_valid (schedule : list nat) :
  ∀ (pool : list InFlight) (w : World),
    storeValid w → storeValid (runSchedule schedule pool w).2.
Proof.
  induction schedule as [|i rest IH]; intros pool w Hw; [exact Hw|].
  cbn [runSchedule]. destruct (pool !! i) as [t|]; [|by apply IH].
  rewrite bind_run. pose proof (resume_stays_valid t w Hw) as Ht.
  destruct (resume t w) as [[t'|e] w']; [by apply IH | exact Ht].
Qed.

(** X3. The staking collection never holds a document that its schema
    would refuse: if every stored document has a non-empty address,
    [stakedAmount >= 0] and [rewards >= 0], the same is true after any of the
    three mutating routes, and after any interleaving of [/stake] requests,
    whatever the requests and the clock. *)
Theorem staking_collection_stays_valid
    (wallet : string) (amount : Qc) (schedule : list nat) (pool : list InFlight)
    (w : World) :
  storeValid w →
  storeValid (postStake wallet amount w).2
  ∧ storeValid (postClaimRewards wallet w).2
  ∧ storeValid (postUnstake wallet w).2
  ∧ storeValid (runSchedule schedule pool w).2.
Proof.
  intros Hw. repeat split.
  - by apply postStake_stays_valid.
  - by apply postClaimRewards_stays_valid.
  - by apply postUnstake_stays_valid.
  - by apply runSchedule_stays_valid.
Qed.

Lemma staking_collection_stays_valid_witness :
  storeValid (runSchedule [0; 1; 0; 1]%nat (arrivals 2 "alice") emptyWorld).2.
Proof.
  apply (staking_collection_stays_valid "alice" 1 [0; 1; 0; 1]%nat
           (arrivals 2 "alice") emptyWorld).
  intros wallet user Hfound. vm_compute in Hfound. discriminate.
Defined.

(** ** Refused stakes *)

Lemma storeValid_no_blank_key (w : World) : storeValid w → stakingUsers w !! "" = None.
Proof.
  intros Hw. destruct (stakingUsers w !! "") as [user|] eqn:Hfound; [|done].
  by destruct (storeValid_lookup w "" user Hw Hfound) as [Hkey _].
Qed.

(** X4. [/stake] refuses a zero or negative amount with status 400 before
    it reads anything. An address made of white space only passes that guard
    (it is a non-empty string), is trimmed to the empty string by the schema,
    and is then refused by the [required] validator: the answer is 500 and no
    document is stored. *)
Theorem stake_refuses_bad_input (wallet : string) (amount : Qc) (w : World) :
  (amount ≤ 0 →
   postStake wallet amount w
   = (Returned (mkResponse 400 (JMessage
        [Lit "Wallet address and staking amount are required and must be positive."])),
      w))
  ∧ (0 < amount → truthy wallet = true → trim wallet = "" → storeValid w →
     answer (postStake wallet amount w)
     = Some (mkResponse 500 (JMessage
         [ErrMessage (ValidationError [("walletAddress", "required")])]))
     ∧ stakingUsers (postStake wallet amount w).2 = stakingUsers w).
Proof.
  split.
  - intros Hamount. apply stakeRejected_true. unfold stakeRejected.
    rewrite (bool_decide_eq_true_2 (amount ≤ 0)) by done.
    by rewrite !orb_true_r.
  - intros Hamount Hwallet Hblank Hvalid.
    destruct (postStake_run wallet amount w) as (w' & Hs & _ & _ & ->).
    { by apply stakeRejected_false. }
    unfold stakedDocument. rewrite Hblank, (storeValid_no_blank_key w Hvalid).
    assert (Hstaked : 0 ≤ 0 + amount).
    { rewrite Qcplus_0_l. by apply Qclt_le_weak. }
    assert (Hfailures : StakingUser_failures ""
              (mkStakingUser (0 + amount) 0 (clock w 0%nat) (clock w 2%nat))
            = [("walletAddress", "required")]).
    { unfold StakingUser_failures. cbn [truthy stakedAmount rewards].
      by rewrite !bool_decide_eq_true_2. }
    rewrite Hfailures. rewrite decide_False by done. done.
Qed.

Lemma stake_refuses_bad_input_witness :
  postStake "alice" (-1) emptyWorld
  = (Returned (mkResponse 400 (JMessage
       [Lit "Wallet address and staking amount are required and must be positive."])),
     emptyWorld)
  ∧ answer (postStake "   " 1 emptyWorld)
    = Some (mkResponse 500 (JMessage
        [ErrMessage (ValidationError [("walletAddress", "required")])])).
Proof.
  split.
  - apply (stake_refuses_bad_input "alice" (-1) emptyWorld). discriminate.
  - apply (stake_refuses_bad_input "   " 1 emptyWorld);
      [reflexivity | reflexivity | reflexivity |].
    by apply storeValid_empty.
Defined.

(** X5. A stake that would store a negative reward is refused: when the
    clock reads so far behind [lastStakedOrUnstaked] that the stored reward
    plus the (negative) accrual is below zero, the [min: 0] validator of
    [rewards] fails, the route answers 500 and the document is left as it
    was. *)
Theorem stake_never_stores_a_negative_reward
    (wallet : string) (amount : Qc) (w : World) (user : StakingUser) :
  truthy (trim wallet) = true → 0 < amount →
  stakingUsers w !! trim wallet = Some user → 0 ≤ stakedAmount user →
  rewards user
  + accrue (stakedAmount user) (clock w 0%nat - lastStakedOrUnstaked user) STAKING_APR
  < 0 →
  answer (postStake wallet amount w)
  = Some (mkResponse 500 (JMessage [ErrMessage (ValidationError [("rewards", "min")])]))
  ∧ stakingUsers (postStake wallet amount w).2 = stakingUsers w.
Proof.
  intros Hwallet Hamount Hfound Hstaked Hnegative.
  destruct (postStake_run wallet amount w) as (w' & Hs & _ & _ & ->).
  { apply stakeRejected_false; [by apply truthy_trim | done]. }
  unfold stakedDocument. rewrite Hfound.
  match goal with
  | |- context [StakingUser_failures ?k ?u] =>
      assert (Hfailures : StakingUser_failures k u = [("rewards", "min")])
  end.
  { unfold StakingUser_failures. rewrite Hwallet. cbn [stakedAmount rewards].
    rewrite bool_decide_eq_true_2.
    - rewrite bool_decide_eq_false_2; [done | by apply Qclt_not_le].
    - apply Qcplus_nonneg_nonneg; [done | by apply Qclt_le_weak]. }
  rewrite Hfailures. rewrite decide_False by done. done.
Qed.

Lemma stake_never_stores_a_negative_reward_witness :
  let staked := (postStake "alice" (Qc_of_Z 100) (atTime day emptyWorld)).2 in
  answer (postStake "alice" 1 (atTime 0 staked))
  = Some (mkResponse 500 (JMessage [ErrMessage (ValidationError [("rewards", "min")])]))
  ∧ stakingUsers (postStake "alice" 1 (atTime 0 staked)).2
    = stakingUsers (atTime 0 staked).
Proof.
  intros staked.
  apply (stake_never_stores_a_negative_reward "alice" 1 (atTime 0 staked)
           (mkStakingUser (Qc_of_Z 100) 0 day day)).
  - reflexivity.
  - reflexivity.
  - cbn [stakingUsers atTime]. unfold staked.
    destruct (stake_fresh_run "alice" (Qc_of_Z 100) day emptyWorld eq_refl eq_refl eq_refl)
      as [-> _].
    by rewrite lookup_insert_eq.
  - discriminate.
  - decided.
Defined.

(** ** Simple interest *)

Lemma accrue_add_time (staked annualRate : Qc) (e1 e2 : Z) :
  accrue staked (e1 + e2) annualRate
  = accrue staked e1 annualRate + accrue staked e2 annualRate.
Proof.
  unfold accrue. rewrite Z2Qc_inj_add. to_Q.
  generalize (inject_Z e1) (inject_Z e2). intros q1 q2. field.
Qed.

Lemma accrue_add_principal (s1 s2 annualRate : Qc) (e : Z) :
  accrue (s1 + s2) e annualRate = accrue s1 e annualRate + accrue s2 e annualRate.
Proof.
  unfold accrue. to_Q. generalize (inject_Z e). intros q. field.
Qed.

Lemma accrue_no_principal (annualRate : Qc) (e : Z) : accrue 0 e annualRate = 0.
Proof. unfold accrue. to_Q. generalize (inject_Z e). intros q. field. Qed.

(** X6. [calculateRewards] is simple interest. What accrues from [t0] to
    [t1] plus what accrues from [t1] to [t2] is what accrues from [t0] to
    [t2], for any three instants; and what accrues on a principal
    [s1 + s2] is what accrues on [s1] plus what accrues on [s2]. *)
Theorem accrual_is_additive (annualRate s1 s2 : Qc) (t0 t1 t2 : Z) :
  accruedRewards annualRate t1 s1 t0 + accruedRewards annualRate t2 s1 t1
  = accruedRewards annualRate t2 s1 t0
  ∧ accruedRewards annualRate t1 (s1 + s2) t0
    = accruedRewards annualRate t1 s1 t0 + accruedRewards annualRate t1 s2 t0.
Proof.
  rewrite !accruedRewards_accrue. split.
  - rewrite <- accrue_add_time. f_equal. lia.
  - apply accrue_add_principal.
Qed.

(** X7. The rate is annual: over 365 days a principal accrues exactly one
    tenth of itself, and over one day one 365th of that. *)
Theorem a_year_pays_ten_percent (staked : Qc) (lastDate : Z) (w : World) :
  (clock w 0%nat = lastDate + 365 * 86400000)%Z →
  (calculateRewards staked lastDate w).1 = Returned (staked / Qc_of_Z 10)
  ∧ accruedRewards STAKING_APR (lastDate + 86400000) staked lastDate
    = staked / Qc_of_Z 10 / Qc_of_Z 365.
Proof.
  intros Hyear. split.
  - rewrite calculateRewards_run, Hyear. cbn [fst]. f_equal.
    replace (lastDate + 365 * 86400000 - lastDate)%Z with 31536000000%Z by lia.
    unfold accrue, STAKING_APR. to_Q. field.
  - rewrite accruedRewards_accrue.
    replace (lastDate + 86400000 - lastDate)%Z with 86400000%Z by lia.
    unfold accrue, STAKING_APR. to_Q. field.
Qed.

Lemma a_year_pays_ten_percent_witness :
  (calculateRewards (Qc_of_Z 500) 0 (atTime (365 * 86400000) emptyWorld)).1
  = Returned (Qc_of_Z 500 / Qc_of_Z 10).
Proof.
  apply (a_year_pays_ten_percent (Qc_of_Z 500) 0 (atTime (365 * 86400000) emptyWorld)).
  reflexivity.
Defined.

(** ** How the staking routes compose *)

Lemma succeeded_stored (wallet : string) (amount : Qc) (w : World) :
  succeeded (postStake wallet amount w) →
  stakingUsers (postStake wallet amount w).2
  = <[trim wallet := stakedDocument wallet amount w]> (stakingUsers w).
Proof.
  intros (res & Hres & Hcode).
  destruct (stakeRejected wallet amount) eqn:Hguard.
  { rewrite stakeRejected_true in Hres by done. by injection Hres as <-. }
  destruct (postStake_run wallet amount w Hguard) as (w' & Hs & _ & _ & Hrun).
  rewrite Hrun in Hres |- *. case_decide.
  - cbn. by rewrite Hs.
  - by injection Hres as <-.
Qed.

(** X8. Staking more loses no reward. When a stake on a stored wallet
    succeeds, the reward that [GET /:walletAddress] shows at that instant is
    the same after the stake as before it, and the principal it shows has
    grown by the amount staked. *)
Theorem stake_keeps_the_live_reward
    (wallet : string) (amount : Qc) (now : Z) (w : World) (user : StakingUser) :
  frozenAt now w → stakingUsers w !! trim wallet = Some user →
  succeeded (postStake wallet amount w) →
  ∃ reward,
    shownStake (getStaking wallet w) = Some (stakedAmount user, reward)
    ∧ shownStake (getStaking wallet (atTime now (postStake wallet amount w).2))
      = Some (stakedAmount user + amount, reward).
Proof.
  intros Hnow Hfound Hok. eexists. split; [by apply shownStake_stored|].
  rewrite (shownStake_stored wallet _ (stakedDocument wallet amount w)).
  - unfold stakedDocument. rewrite Hfound.
    cbn [stakedAmount rewards lastStakedOrUnstaked atTime clock].
    rewrite !Hnow, Z.sub_diag, accrue_zero. do 2 f_equal. ring.
  - cbn [stakingUsers atTime]. rewrite (succeeded_stored _ _ _ Hok).
    by rewrite lookup_insert_eq.
Qed.

Lemma stake_keeps_the_live_reward_witness :
  let staked := atTime (2 * day) (postStake "alice" (Qc_of_Z 100) (atTime day emptyWorld)).2 in
  ∃ reward,
    shownStake (getStaking "alice" staked) = Some (Qc_of_Z 100, reward)
    ∧ shownStake (getStaking "alice"
                    (atTime (2 * day) (postStake "alice" (Qc_of_Z 50) staked).2))
      = Some (Qc_of_Z 100 + Qc_of_Z 50, reward).
Proof.
  intros staked.
  assert (Hfound : stakingUsers staked !! trim "alice"
                   = Some (mkStakingUser (Qc_of_Z 100) 0 day day)).
  { cbn [stakingUsers atTime staked].
    destruct (stake_fresh_run "alice" (Qc_of_Z 100) day emptyWorld eq_refl eq_refl eq_refl)
      as [-> _].
    by rewrite lookup_insert_eq. }
  apply (stake_keeps_the_live_reward "alice" (Qc_of_Z 50) (2 * day) staked
           (mkStakingUser (Qc_of_Z 100) 0 day day)).
  - intros n. reflexivity.
  - exact Hfound.
  - destruct (postStake_run "alice" (Qc_of_Z 50) staked eq_refl) as (w' & _ & _ & _ & Hrun).
    rewrite Hrun. rewrite decide_True; [by eexists|].
    unfold stakedDocument. rewrite Hfound.
    apply StakingUser_failures_nil.
    split; [reflexivity|]. split; decided.
Defined.

Lemma postClaimRewards_cases (wallet : string) (w : World) (user : StakingUser) :
  truthy (trim wallet) = true → 0 ≤ stakedAmount user →
  stakingUsers w !! trim wallet = Some user →
  let live := rewards user
              + accrue (stakedAmount user)
                  (clock w 0%nat - lastStakedOrUnstaked user) STAKING_APR in
  (live ≤ 0 →
   answer (postClaimRewards wallet w)
   = Some (mkResponse 400 (JMessage [Lit "No rewards to claim."]))
   ∧ stakingUsers (postClaimRewards wallet w).2 = stakingUsers w)
  ∧ (0 < live →
     statusOf (postClaimRewards wallet w) = Some 200%Z
     ∧ stakingUsers (postClaimRewards wallet w).2
       = <[trim wallet :=
             mkStakingUser (stakedAmount user) 0 (clock w 1%nat) (clock w 2%nat)]>
           (stakingUsers w)).
Proof.
  intros Hwallet Hstaked Hfound live.
  rewrite (postClaimRewards_run wallet w user Hwallet Hstaked Hfound). fold live.
  split; intros Hlive.
  - by rewrite decide_True.
  - rewrite decide_False by (by apply Qclt_not_le). done.
Qed.

(** X9. Claiming early loses nothing. For a stored wallet with a principal
    [>= 0] and instants [t1 <= t2]: the live reward that
    [GET /:walletAddress] shows at [t1], which a claim at [t1] takes (the
    claim is answered 200 when it is positive and 400 otherwise, taking
    nothing), plus the live reward shown at [t2] after that claim, is the
    live reward shown at [t2] had there been no claim at [t1]. *)
Theorem claims_add_up
    (wallet : string) (t1 t2 : Z) (w : World) (user : StakingUser) :
  truthy (trim wallet) = true → 0 ≤ stakedAmount user →
  stakingUsers w !! trim wallet = Some user → (t1 ≤ t2)%Z →
  let first := postClaimRewards wallet (atTime t1 w) in
  ∃ taken left whole : Qc,
    shownStake (getStaking wallet (atTime t1 w)) = Some (stakedAmount user, taken)
    ∧ statusOf first = Some (if decide (0 < taken) then 200%Z else 400%Z)
    ∧ shownStake (getStaking wallet (atTime t2 first.2)) = Some (stakedAmount user, left)
    ∧ shownStake (getStaking wallet (atTime t2 w)) = Some (stakedAmount user, whole)
    ∧ (if decide (0 < taken) then taken else 0) + left = whole.
Proof.
  intros Hwallet Hstaked Hfound Htime first.
  set (s := stakedAmount user). set (t0 := lastStakedOrUnstaked user).
  assert (Hsplit : accrue s (t2 - t0) STAKING_APR
                   = accrue s (t1 - t0) STAKING_APR + accrue s (t2 - t1) STAKING_APR).
  { rewrite <- accrue_add_time. f_equal. lia. }
  destruct (postClaimRewards_cases wallet (atTime t1 w) user Hwallet Hstaked Hfound)
    as [Hrefused Hpaid].
  cbn [atTime clock stakingUsers] in Hrefused, Hpaid. fold s t0 first in Hrefused, Hpaid.
  exists (rewards user + accrue s (t1 - t0) STAKING_APR).
  destruct (Qclt_le_dec 0 (rewards user + accrue s (t1 - t0) STAKING_APR))
    as [Hlive | Hlive].
  - destruct (Hpaid Hlive) as [Hcode Hstored].
    assert (Hfound' : stakingUsers (atTime t2 first.2) !! trim wallet
                      = Some (mkStakingUser s 0 t1 t1)).
    { cbn [stakingUsers atTime]. rewrite Hstored. by rewrite lookup_insert_eq. }
    exists (0 + accrue s (t2 - t1) STAKING_APR),
           (rewards user + accrue s (t2 - t0) STAKING_APR).
    rewrite !decide_True by done.
    split; [exact (shownStake_stored wallet (atTime t1 w) user Hfound)|].
    split; [done|].
    split; [exact (shownStake_stored wallet (atTime t2 first.2) _ Hfound')|].
    split; [exact (shownStake_stored wallet (atTime t2 w) user Hfound)|].
    rewrite Hsplit. ring.
  - destruct (Hrefused Hlive) as [Hanswer Hstored].
    assert (Hfound' : stakingUsers (atTime t2 first.2) !! trim wallet = Some user).
    { cbn [stakingUsers atTime]. by rewrite Hstored. }
    exists (rewards user + accrue s (t2 - t0) STAKING_APR),
           (rewards user + accrue s (t2 - t0) STAKING_APR).
    rewrite !decide_False by (by apply Qcle_not_lt).
    split; [exact (shownStake_stored wallet (atTime t1 w) user Hfound)|].
    split; [unfold statusOf; by rewrite Hanswer|].
    split; [exact (shownStake_stored wallet (atTime t2 first.2) user Hfound')|].
    split; [exact (shownStake_stored wallet (atTime t2 w) user Hfound)|].
    ring.
Qed.

Lemma claims_add_up_witness :
  let staked := (postStake "alice" (Qc_of_Z 100) (atTime 0 emptyWorld)).2 in
  let first := postClaimRewards "alice" (atTime day staked) in
  ∃ taken left whole : Qc,
    shownStake (getStaking "alice" (atTime day staked)) = Some (Qc_of_Z 100, taken)
    ∧ statusOf first = Some (if decide (0 < taken) then 200%Z else 400%Z)
    ∧ shownStake (getStaking "alice" (atTime (3 * day) first.2))
      = Some (Qc_of_Z 100, left)
    ∧ shownStake (getStaking "alice" (atTime (3 * day) staked))
      = Some (Qc_of_Z 100, whole)
    ∧ (if decide (0 < taken) then taken else 0) + left = whole.
Proof.
  intros staked.
  apply (claims_add_up "alice" day (3 * day) staked (mkStakingUser (Qc_of_Z 100) 0 0 0)).
  - reflexivity.
  - discriminate.
  - unfold staked.
    destruct (stake_fresh_run "alice" (Qc_of_Z 100) 0%Z emptyWorld eq_refl eq_refl eq_refl)
      as [-> _].
    by rewrite lookup_insert_eq.
  - discriminate.
Defined.

(** X10. A reward is paid once. After a claim that paid, a second claim at
    the same instant is answered 400 ("No rewards to claim.") and leaves the
    document as the first claim wrote it; [GET] then shows the principal
    unchanged and a reward of 0. *)
Theorem no_double_claim
    (wallet : string) (now : Z) (w : World) (user : StakingUser) :
  truthy (trim wallet) = true → 0 ≤ stakedAmount user →
  stakingUsers w !! trim wallet = Some user →
  0 < rewards user
      + accrue (stakedAmount user) (now - lastStakedOrUnstaked user) STAKING_APR →
  let first := postClaimRewards wallet (atTime now w) in
  let second := postClaimRewards wallet (atTime now first.2) in
  statusOf second = Some 400%Z
  ∧ answer second = Some (mkResponse 400 (JMessage [Lit "No rewards to claim."]))
  ∧ stakingUsers second.2 = stakingUsers first.2
  ∧ shownStake (getStaking wallet (atTime now first.2)) = Some (stakedAmount user, 0).
Proof.
  intros Hwallet Hstaked Hfound Hlive first second.
  destruct (postClaimRewards_cases wallet (atTime now w) user Hwallet Hstaked Hfound)
    as [_ Hpaid].
  destruct (Hpaid Hlive) as [_ Hstored]. fold first in Hstored.
  cbn [atTime clock stakingUsers] in Hstored.
  assert (Hfound' : stakingUsers (atTime now first.2) !! trim wallet
                    = Some (mkStakingUser (stakedAmount user) 0 now now)).
  { cbn [stakingUsers atTime]. rewrite Hstored. by rewrite lookup_insert_eq. }
  assert (Hnothing : 0 + accrue (stakedAmount user) (now - now) STAKING_APR = 0).
  { rewrite Z.sub_diag, accrue_zero. ring. }
  destruct (postClaimRewards_cases wallet (atTime now first.2)
              (mkStakingUser (stakedAmount user) 0 now now) Hwallet Hstaked Hfound')
    as [Hrefused _].
  cbn [atTime clock stakedAmount rewards lastStakedOrUnstaked] in Hrefused.
  destruct Hrefused as (Hanswer & Hs); [by rewrite Hnothing|].
  fold second in Hanswer, Hs.
  split; [unfold statusOf; by rewrite Hanswer|]. split; [done|]. split; [done|].
  rewrite (shownStake_stored wallet _ _ Hfound').
  cbn [atTime clock stakedAmount rewards lastStakedOrUnstaked]. by rewrite Hnothing.
Qed.

Lemma no_double_claim_witness :
  let staked := (postStake "alice" (Qc_of_Z 100) (atTime 0 emptyWorld)).2 in
  let first := postClaimRewards "alice" (atTime day staked) in
  statusOf (postClaimRewards "alice" (atTime day first.2)) = Some 400%Z.
Proof.
  intros staked.
  apply (no_double_claim "alice" day staked (mkStakingUser (Qc_of_Z 100) 0 0 0)).
  - reflexivity.
  - discriminate.
  - unfold staked.
    destruct (stake_fresh_run "alice" (Qc_of_Z 100) 0%Z emptyWorld eq_refl eq_refl eq_refl)
      as [-> _].
    by rewrite lookup_insert_eq.
  - decided.
Defined.

Lemma postUnstake_paid (wallet : string) (w : World) (user : StakingUser) :
  truthy (trim wallet) = true → 0 < stakedAmount user →
  stakingUsers w !! trim wallet = Some user →
  let emptied := mkStakingUser 0 0 (clock w 2%nat) (clock w 1%nat) in
  answer (postUnstake wallet w)
  = Some (mkResponse 200
      (JMessageUser
         [Lit "Successfully unstaked ";
          Lit (toFixed 2
                 (stakedAmount user
                  + (rewards user
                     + accrue (stakedAmount user)
                         (clock w 0%nat - lastStakedOrUnstaked user) STAKING_APR)));
          Lit " AFOX."]
         (trim wallet) emptied))
  ∧ stakingUsers (postUnstake wallet w).2 = <[trim wallet := emptied]> (stakingUsers w).
Proof.
  intros Hwallet Hstaked Hfound.
  rewrite (postUnstake_run wallet w user Hwallet Hfound).
  rewrite decide_False by (by apply Qclt_not_le). done.
Qed.

(** X11. An emptied stake stays empty. After an unstake that succeeded,
    and until the wallet stakes again, at any reading of the clock [GET]
    shows 0 staked and 0 reward, a claim is answered 400 ("No rewards to
    claim.") and another unstake is answered 400 ("You have no AFOX
    staked."), and neither changes the document. *)
Theorem emptied_stake_stays_empty
    (wallet : string) (w later : World) (user : StakingUser) :
  truthy (trim wallet) = true → 0 < stakedAmount user →
  stakingUsers w !! trim wallet = Some user →
  stakingUsers later = stakingUsers (postUnstake wallet w).2 →
  shownStake (getStaking wallet later) = Some (0, 0)
  ∧ (answer (postClaimRewards wallet later)
     = Some (mkResponse 400 (JMessage [Lit "No rewards to claim."]))
     ∧ stakingUsers (postClaimRewards wallet later).2 = stakingUsers later)
  ∧ (answer (postUnstake wallet later)
     = Some (mkResponse 400 (JMessage [Lit "You have no AFOX staked."]))
     ∧ stakingUsers (postUnstake wallet later).2 = stakingUsers later).
Proof.
  intros Hwallet Hstaked Hfound Hlater.
  destruct (postUnstake_paid wallet w user Hwallet Hstaked Hfound) as (_ & Hstored).
  set (emptied := mkStakingUser 0 0 (clock w 2%nat) (clock w 1%nat)) in Hstored.
  assert (Hfound' : stakingUsers later !! trim wallet = Some emptied).
  { rewrite Hlater, Hstored. by rewrite lookup_insert_eq. }
  assert (Hnothing : ∀ e, 0 + accrue 0 e STAKING_APR = 0).
  { intros e. rewrite accrue_no_principal. ring. }
  split; [|split].
  - rewrite (shownStake_stored wallet later emptied Hfound'). cbn. by rewrite Hnothing.
  - rewrite (postClaimRewards_run wallet later emptied Hwallet) by done.
    cbn [stakedAmount rewards lastStakedOrUnstaked emptied].
    rewrite Hnothing. by rewrite decide_True.
  - rewrite (postUnstake_run wallet later emptied Hwallet Hfound').
    by rewrite decide_True.
Qed.

Lemma emptied_stake_stays_empty_witness :
  let staked := (postStake "alice" (Qc_of_Z 100) (atTime 0 emptyWorld)).2 in
  let later := atTime (30 * day) (postUnstake "alice" (atTime day staked)).2 in
  shownStake (getStaking "alice" later) = Some (0, 0).
Proof.
  intros staked later.
  apply (emptied_stake_stays_empty "alice" (atTime day staked) later
           (mkStakingUser (Qc_of_Z 100) 0 0 0)).
  - reflexivity.
  - reflexivity.
  - cbn [stakingUsers atTime]. unfold staked.
    destruct (stake_fresh_run "alice" (Qc_of_Z 100) 0%Z emptyWorld eq_refl eq_refl eq_refl)
      as [-> _].
    by rewrite lookup_insert_eq.
  - reflexivity.
Defined.



(** * Further properties of the DAO routes *)

Lemma DaoProposal_save_run (doc : ProposalDoc) (w : World) :
  DaoProposal_failures (clock w 0%nat) (proposalFields doc) = [] →
  proposalLoaded doc = daoProposals w !! proposalKey doc →
  (∀ loaded, proposalLoaded doc = Some loaded →
             ∃ pushed, voters (proposalFields doc) = voters loaded ++ pushed) →
  DaoProposal_save doc w
  = (Returned (),
     setDaoProposals (<[proposalKey doc := proposalFields doc]> (daoProposals w))
       (tick w)).
Proof.
  intros Hvalid Hloaded Hpushed. unfold DaoProposal_save.
  rewrite bind_run, Date_now_run. cbn beta iota. rewrite Hvalid.
  unfold DaoProposal_write. cbn [daoProposals tick]. rewrite <- Hloaded.
  destruct (proposalLoaded doc) as [loaded|]; [|done].
  by rewrite DaoProposal_changes_same by (by apply Hpushed).
Qed.

Lemma DaoProposal_save_invalid_run (doc : ProposalDoc) (w : World) :
  DaoProposal_failures (clock w 0%nat) (proposalFields doc) ≠ [] →
  DaoProposal_save doc w
  = (Thrown (ValidationError
       (DaoProposal_failures (clock w 0%nat) (proposalFields doc))), tick w).
Proof.
  intros Hinvalid. unfold DaoProposal_save.
  rewrite bind_run, Date_now_run. cbn beta iota.
  by destruct (DaoProposal_failures _ _).
Qed.

Lemma DaoProposal_save_cases (doc : ProposalDoc) (w : World) :
  (∃ w', DaoProposal_save doc w = (Returned (), w'))
  ∨ (∃ e w', DaoProposal_save doc w = (Thrown e, w')).
Proof.
  unfold DaoProposal_save. rewrite bind_run, Date_now_run. cbn beta iota.
  destruct (DaoProposal_failures _ _); [|right; by do 2 eexists].
  unfold DaoProposal_write. cbn zeta.
  destruct (proposalLoaded doc), (daoProposals (tick w) !! proposalKey doc);
    (left + right); by repeat eexists.
Qed.

Lemma DaoProposal_save_staking (doc : ProposalDoc) (w : World) :
  stakingUsers (DaoProposal_save doc w).2 = stakingUsers w.
Proof.
  unfold DaoProposal_save. rewrite bind_run, Date_now_run. cbn beta iota.
  destruct (DaoProposal_failures _ _); [|done].
  unfold DaoProposal_write. cbn zeta.
  by destruct (proposalLoaded doc), (daoProposals (tick w) !! proposalKey doc).
Qed.

Lemma lengthFailure_nil (path v : string) (lo hi : nat) :
  (1 ≤ lo)%nat → (lo ≤ String.length v ≤ hi)%nat → lengthFailure path v lo hi = [].
Proof.
  intros Hlo [Hmin Hmax]. unfold lengthFailure.
  destruct v as [|a v]; [cbn in Hmin; lia|]. cbn [truthy negb].
  destruct (Nat.ltb_spec (String.length (String a v)) lo); [lia|].
  by destruct (Nat.ltb_spec hi (String.length (String a v))); [lia|].
Qed.

(** The conditions under which the schema accepts the fixed paths of a
    proposal. *)
Lemma DaoProposal_failures_nil (now : Z) (p : DaoProposal) :
  (5 ≤ String.length (title p) ≤ 200)%nat →
  (20 ≤ String.length (description p) ≤ 5000)%nat →
  solanaAddressRegex (creatorWallet p) = true →
  (0 ≤ votesFor p)%Z → (0 ≤ votesAgainst p)%Z →
  forallb solanaAddressRegex (voters p) = true →
  (now < expiresAt p)%Z →
  DaoProposal_failures now p = [].
Proof.
  intros Htitle Hdescription Hcreator Hfor Hagainst Hvoters Hopen.
  unfold DaoProposal_failures.
  rewrite !lengthFailure_nil by (done || lia).
  rewrite Hcreator, Hvoters, !bool_decide_eq_true_2 by done.
  destruct (creatorWallet p); [discriminate | done].
Qed.

Section DaoFurther.
Context `{Externals}.

Lemma proposalAdmitted_true (title description creatorWallet : string) :
  proposalAdmitted title description creatorWallet = true →
  (negb (truthy title) || negb (truthy description) || negb (truthy creatorWallet)) = false
  ∧ negb (PublicKey_parses creatorWallet) = false.
Proof.
  unfold proposalAdmitted. rewrite !andb_true_iff.
  intros (((-> & ->) & ->) & ->). done.
Qed.

(** An admitted request reaches [save] with the document [proposed], the
    first reading of the clock and the first id of the generator consumed. *)
Lemma postProposals_run (title description creatorWallet : string) (w : World) :
  proposalAdmitted title description creatorWallet = true →
  let doc := mkProposalDoc None (objectIds w 0%nat)
               (proposed title description creatorWallet (clock w 0%nat)) in
  let w' := mkWorld (λ n, clock w (S n)) (λ n, objectIds w (S n))
              (stakingUsers w) (daoProposals w) in
  postProposals title description creatorWallet w
  = match DaoProposal_save doc w' with
    | (Returned _, w'') =>
        (Returned (mkResponse 201 (JMessageProposal
           [Lit "DAO proposal successfully created and saved!"]
           (proposalKey doc) (proposalFields doc))), w'')
    | (Thrown (ValidationError failures), w'') =>
        (Returned (mkResponse 400 (JMessageErrors
           [Lit "Validation failed for proposal data."]
           (DaoProposal_message (proposalFields doc) <$> failures))), w'')
    | (Thrown _, w'') =>
        (Returned (mkResponse 500 (JMessage
           [Lit "Failed to create DAO proposal due to an unexpected server error. Please check your input and try again."])),
         w'')
    end.
Proof.
  intros (G1 & G2)%proposalAdmitted_true doc w'.
  unfold postProposals. rewrite G1, G2.
  rewrite bind_run, Date_now_run. cbn beta iota.
  rewrite bind_run. unfold DaoProposal_new. rewrite bind_run.
  unfold ObjectId_new at 1. cbn beta iota. rewrite ret_run. cbn beta iota.
  rewrite tryCatch_run, bind_run.
  match goal with
  | |- context [DaoProposal_save ?d ?x] =>
      change (DaoProposal_save d x) with (DaoProposal_save doc w')
  end.
  destruct (DaoProposal_save doc w') as [[[]|e] w'']; [reflexivity|].
  by destruct e.
Qed.

(** X13. A proposal that is accepted is stored as the route built it. For
    a request that passes the route's checks, whose trimmed title has 5 to
    200 characters, whose trimmed description has 20 to 5000 and whose
    trimmed wallet has the address format, under a clock that does not reach
    the deadline between the two readings and with an unused id, the answer
    is 201 and the collection gains, under the new id, a proposal with those
    texts, no votes, no voters, status [active] and a deadline exactly seven
    days (604 800 000 ms) after the first reading of the clock. *)
Theorem proposal_is_created_open_for_seven_days
    (title description creatorWallet : string) (w : World) :
  proposalAdmitted title description creatorWallet = true →
  (5 ≤ String.length (trim title) ≤ 200)%nat →
  (20 ≤ String.length (trim description) ≤ 5000)%nat →
  solanaAddressRegex (trim creatorWallet) = true →
  (clock w 1%nat < clock w 0%nat + 604800000)%Z →
  daoProposals w !! objectIds w 0%nat = None →
  let created := mkDaoProposal (trim title) (trim description) (trim creatorWallet)
                   0 0 [] (clock w 0%nat + 604800000) active in
  let after := postProposals title description creatorWallet w in
  answer after
  = Some (mkResponse 201 (JMessageProposal
      [Lit "DAO proposal successfully created and saved!"] (objectIds w 0%nat) created))
  ∧ daoProposals after.2 = <[objectIds w 0%nat := created]> (daoProposals w).
Proof.
  intros Hadmitted Htitle Hdescription Hwallet Hclock Hfresh created after.
  unfold after. rewrite postProposals_run by done. cbn zeta.
  rewrite DaoProposal_save_run.
  - done.
  - by apply DaoProposal_failures_nil.
  - cbn. by rewrite Hfresh.
  - intros loaded [=].
Qed.

(** X14. A proposal the schema refuses is answered 400 and not stored.
    For a request that passes the route's checks, a title that is blank once
    trimmed is reported as "Proposal title is required." and a trimmed title
    of 1 to 4 characters as "Proposal title must be at least 5 characters
    long.", each first in the list of errors; the collection is left as it
    was. *)
Theorem proposal_with_short_title_is_refused
    (heading text wallet : string) (w : World) :
  proposalAdmitted heading text wallet = true →
  (String.length (trim heading) < 5)%nat →
  let after := postProposals heading text wallet w in
  daoProposals after.2 = daoProposals w
  ∧ ∃ others,
      answer after
      = Some (mkResponse 400 (JMessageErrors
          [Lit "Validation failed for proposal data."]
          ([Lit (if truthy (trim heading)
                 then "Proposal title must be at least 5 characters long."
                 else "Proposal title is required.")] :: others))).
Proof.
  intros Hadmitted Htitle after. unfold after.
  rewrite postProposals_run by done. cbn zeta.
  set (doc := mkProposalDoc _ _ _). set (w' := mkWorld _ _ _ _).
  assert (Hfailures : ∃ rest,
    DaoProposal_failures (clock w' 0%nat) (proposalFields doc)
    = ("title", if truthy (trim heading) then "minlength" else "required") :: rest).
  { unfold DaoProposal_failures. cbn [proposalFields doc proposed title].
    unfold lengthFailure at 1. destruct (truthy (trim heading)); cbn [negb].
    - destruct (Nat.ltb_spec (String.length (trim heading)) 5); [|lia]. by eexists.
    - by eexists. }
  destruct Hfailures as (rest & Hfailures).
  rewrite DaoProposal_save_invalid_run by (by rewrite Hfailures).
  rewrite Hfailures. split; [done|].
  exists (DaoProposal_message (proposalFields doc) <$> rest).
  by destruct (truthy (trim heading)).
Qed.

Lemma DaoProposal_insert_effect (id : string) (p : DaoProposal) (w : World) :
  daoProposals (DaoProposal_save (mkProposalDoc None id p) w).2 = daoProposals w
  ∨ (daoProposals w !! id = None
     ∧ daoProposals (DaoProposal_save (mkProposalDoc None id p) w).2
       = <[id := p]> (daoProposals w)).
Proof.
  unfold DaoProposal_save. rewrite bind_run, Date_now_run. cbn beta iota.
  destruct (DaoProposal_failures _ _); [|by left].
  unfold DaoProposal_write.
  cbn [proposalLoaded proposalKey proposalFields daoProposals tick].
  destruct (daoProposals w !! id); [by left | by right].
Qed.

Lemma postProposals_refused (heading text wallet : string) (w : World) :
  proposalAdmitted heading text wallet = false →
  ∃ m, postProposals heading text wallet w = (Returned (mkResponse 400 (JMessage m)), w).
Proof.
  intros Hrefused. unfold postProposals, proposalAdmitted in *.
  destruct (truthy heading), (truthy text), (truthy wallet); cbn in *;
    try (by eexists).
  rewrite Hrefused. by eexists.
Qed.

Lemma postProposals_world (heading text wallet : string) (w : World) :
  stakingUsers (postProposals heading text wallet w).2 = stakingUsers w
  ∧ (daoProposals (postProposals heading text wallet w).2 = daoProposals w
     ∨ ∃ p, daoProposals w !! objectIds w 0%nat = None
          ∧ daoProposals (postProposals heading text wallet w).2
            = <[objectIds w 0%nat := p]> (daoProposals w)).
Proof.
  destruct (proposalAdmitted heading text wallet) eqn:Hadmitted.
  - rewrite postProposals_run by done. cbn zeta.
    set (p := proposed heading text wallet (clock w 0%nat)). set (w' := mkWorld _ _ _ _).
    pose proof (DaoProposal_save_staking (mkProposalDoc None (objectIds w 0%nat) p) w')
      as Hstaking.
    pose proof (DaoProposal_insert_effect (objectIds w 0%nat) p w') as Heffect.
    destruct (DaoProposal_save _ w') as [[[]|e] w'']; [|destruct e];
      (split; [exact Hstaking|]);
      (destruct Heffect as [Hsame | [Hfresh Hnew]]; [by left | right; by exists p]).
  - destruct (postProposals_refused heading text wallet w Hadmitted) as [m ->].
    split; [done | by left].
Qed.

Lemma postVote_staking (proposalId voteType voterWallet : string) (w : World) :
  stakingUsers (postVote proposalId voteType voterWallet w).2 = stakingUsers w.
Proof.
  unfold postVote.
  destruct (voteRefused proposalId voteType voterWallet); [done|].
  unfold voteFailed, json. rewrite tryCatch_json_world.
  rewrite bind_run, findById_run.
  destruct (daoProposals w !! ObjectId_hex proposalId) as [p|]; [|done].
  destruct p as [t d c for_ against vs expires st].
  cbn [fmap option_fmap option_map]. unfold voteFinish.
  rewrite bind_run, Date_now_run.
  cbn beta iota.
  case_bool_decide.
  - fold (json 400 (JMessage [Lit "Voting for this proposal has already ended."])).
    rewrite then_json_world. case_bool_decide; [|done].
    by rewrite DaoProposal_save_staking.
  - case_bool_decide; [done|].
    case_bool_decide;
      match goal with
      | |- context [JMessageProposal ?m ?i ?q] =>
          fold (json 200 (JMessageProposal m i q))
      end;
      rewrite then_json_world; by rewrite DaoProposal_save_staking.
Qed.

(** X15. The DAO routes keep to their collection, and creating never
    rewrites. Neither [/proposals] nor [/vote] changes the staking
    collection, and after [/proposals], whatever the request, every proposal
    that was stored is still stored, unchanged. *)
Theorem dao_routes_keep_to_their_collection
    (heading text wallet proposalId voteType voterWallet : string) (w : World) :
  stakingUsers (postProposals heading text wallet w).2 = stakingUsers w
  ∧ stakingUsers (postVote proposalId voteType voterWallet w).2 = stakingUsers w
  ∧ ∀ id p, daoProposals w !! id = Some p →
            daoProposals (postProposals heading text wallet w).2 !! id = Some p.
Proof.
  destruct (postProposals_world heading text wallet w) as [Hstaking Hdao].
  split; [done|]. split; [apply postVote_staking|].
  intros id p Hfound. destruct Hdao as [-> | (q & Hfresh & ->)]; [done|].
  rewrite lookup_insert_ne; [done|]. intros <-. congruence.
Qed.

Lemma withVote_failures_nil (now : Z) (forVote : bool) (voter : string) (p : DaoProposal) :
  wellFormed p → solanaAddressRegex voter = true → (now < expiresAt p)%Z →
  DaoProposal_failures now (withVote forVote voter p) = [].
Proof.
  intros (Htitle & Hdescription & Hcreator & Hfor & Hagainst & Hvoters) Hvoter Hopen.
  apply DaoProposal_failures_nil; cbn; try done.
  - destruct forVote; lia.
  - destruct forVote; lia.
  - rewrite forallb_app, Hvoters. cbn. by rewrite Hvoter.
Qed.

(** X16. A vote that is accepted counts once. For a request that passes
    the route's checks, on a proposal stored under the ObjectId that the
    request's id is cast to, whose paths the schema accepts,
    by a wallet of the address format that is not among the voters, with
    both readings of the clock before the deadline, the answer is 200 and
    the stored proposal changes in exactly this: the counter named by
    [voteType] grows by one and the wallet is appended to the voters. *)
Theorem accepted_vote_counts_once
    (proposalId voteType voterWallet : string) (w : World) (p : DaoProposal) :
  voteAdmitted proposalId voteType voterWallet = true →
  daoProposals w !! ObjectId_hex proposalId = Some p → wellFormed p →
  solanaAddressRegex voterWallet = true → voterWallet ∉ voters p →
  (clock w 0%nat < expiresAt p)%Z → (clock w 1%nat < expiresAt p)%Z →
  let voted := withVote (bool_decide (voteType = "for")) voterWallet p in
  let after := postVote proposalId voteType voterWallet w in
  answer after
  = Some (mkResponse 200 (JMessageProposal
      [Lit "Your vote has been successfully cast!"] (ObjectId_hex proposalId) voted))
  ∧ daoProposals after.2 = <[ObjectId_hex proposalId := voted]> (daoProposals w).
Proof.
  intros (G1 & G2 & G3 & G4)%voteAdmitted_true Hfound Hformed Hvoter Hnew Hopen Hopen'
    voted after.
  pose proof (withVote_failures_nil (clock w 1%nat)
                (bool_decide (voteType = "for")) voterWallet p Hformed Hvoter Hopen')
    as Hvalid.
  unfold after, postVote, voteRefused.
  rewrite G1, G2, G3, G4, tryCatch_run, bind_run, findById_run, Hfound.
  destruct p as [t d c for_ against vs expires st]. cbn in Hopen, Hnew.
  cbn [fmap option_fmap option_map]. unfold voteFinish.
  rewrite bind_run, Date_now_run. cbn beta iota.
  rewrite bool_decide_eq_false_2 by lia.
  rewrite bool_decide_eq_false_2 by done.
  unfold voted, withVote in *.
  cbn [title description creatorWallet votesFor votesAgainst voters expiresAt status] in *.
  case_bool_decide; rewrite bind_run, DaoProposal_save_run;
    first [done | cbn; by rewrite Hfound
          | intros loaded [= <-]; by exists [voterWallet]].
Qed.

(** X17. What [/vote] answers when it cannot vote. A request whose
    [voteType] is neither "for" nor "against" is answered 400 with the world
    untouched, whatever its other fields; a request that passes the checks
    and whose id, once cast to an ObjectId, is that of no stored proposal is
    answered 404 with the world untouched. *)
Theorem vote_refusals (proposalId voteType voterWallet : string) (w : World) :
  (voteType ∉ ["for"; "against"] →
   ∃ m, postVote proposalId voteType voterWallet w
        = (Returned (mkResponse 400 (JMessage m)), w))
  ∧ (voteAdmitted proposalId voteType voterWallet = true →
     daoProposals w !! ObjectId_hex proposalId = None →
     postVote proposalId voteType voterWallet w
     = (Returned (mkResponse 404 (JMessage
          [Lit "DAO Proposal not found with the provided ID."])), w)).
Proof.
  split.
  - intros Htype. unfold postVote, voteRefused.
    rewrite (bool_decide_eq_false_2 (voteType ∈ _)) by done. cbn [negb].
    repeat (match goal with
            | |- context [if ?b then _ else _] => destruct b
            end; [by eexists|]).
    by eexists.
  - intros (G1 & G2 & G3 & G4)%voteAdmitted_true Hfound.
    unfold postVote, voteRefused.
    by rewrite G1, G2, G3, G4, tryCatch_run, bind_run, findById_run, Hfound.
Qed.

(** X18. A vote only ever adds. Whatever the request and the clock, after
    [/vote] every stored proposal is still stored with the same title,
    description, creator and deadline; each of its counters is what it was
    or one more; and its voters are what they were, possibly with one wallet
    appended. *)
Theorem votes_only_accumulate
    (proposalId voteType voterWallet id : string) (w : World) (q : DaoProposal) :
  daoProposals w !! id = Some q →
  ∃ q', daoProposals (postVote proposalId voteType voterWallet w).2 !! id = Some q'
      ∧ title q' = title q ∧ description q' = description q
      ∧ creatorWallet q' = creatorWallet q ∧ expiresAt q' = expiresAt q
      ∧ (votesFor q ≤ votesFor q' ≤ votesFor q + 1)%Z
      ∧ (votesAgainst q ≤ votesAgainst q' ≤ votesAgainst q + 1)%Z
      ∧ (voters q' = voters q ∨ voters q' = voters q ++ [voterWallet]).
Proof.
  intros Hq.
  assert (Hsame : ∃ q', Some q = Some q'
      ∧ title q' = title q ∧ description q' = description q
      ∧ creatorWallet q' = creatorWallet q ∧ expiresAt q' = expiresAt q
      ∧ (votesFor q ≤ votesFor q' ≤ votesFor q + 1)%Z
      ∧ (votesAgainst q ≤ votesAgainst q' ≤ votesAgainst q + 1)%Z
      ∧ (voters q' = voters q ∨ voters q' = voters q ++ [voterWallet])).
  { exists q. repeat split; try done; try lia. by left. }
  destruct (postVote_effect proposalId voteType voterWallet w)
    as [-> | (p & Hfound & [(_ & _ & ->) | (_ & _ & forVote & ->)])];
    [by rewrite Hq | |];
    (rewrite lookup_insert; case_decide as Hid; [subst id | by rewrite Hq]);
    rewrite Hq in Hfound; injection Hfound as <-; eexists; (split; [done|]); cbn.
  - repeat split; try done; try lia. by left.
  - repeat split; try done; destruct forVote; try lia. all: by right.
Qed.

(** X19. A wallet that has voted is never counted again. If the wallet of
    the request is among the voters of the proposal it names, then whatever
    the vote type and the clock, the counters and the voters of that
    proposal are the same after [/vote] as before. *)
Theorem voted_wallet_is_never_counted_again
    (proposalId voteType voterWallet : string) (w : World) (p : DaoProposal) :
  daoProposals w !! ObjectId_hex proposalId = Some p → voterWallet ∈ voters p →
  ∃ p', daoProposals (postVote proposalId voteType voterWallet w).2
          !! ObjectId_hex proposalId
        = Some p'
      ∧ votesFor p' = votesFor p ∧ votesAgainst p' = votesAgainst p
      ∧ voters p' = voters p.
Proof.
  intros Hp Hvoted.
  destruct (postVote_effect proposalId voteType voterWallet w)
    as [-> | (q & Hfound & [(_ & _ & ->) | (_ & Hnew & _)])].
  - by exists p.
  - rewrite Hp in Hfound. injection Hfound as <-.
    rewrite lookup_insert_eq. by eexists.
  - rewrite Hp in Hfound. by injection Hfound as <-.
Qed.

Lemma postVote_status (proposalId voteType voterWallet : string) (w : World) :
  ∃ code, statusOf (postVote proposalId voteType voterWallet w) = Some code
          ∧ code ∈ [200; 400; 404; 409; 500]%Z.
Proof.
  unfold postVote, voteRefused.
  repeat (match goal with
          | |- context [if ?b then _ else _] => destruct b
          end; [exists 400%Z; split; [done | set_solver]|]).
  rewrite tryCatch_run, bind_run, findById_run.
  destruct (daoProposals w !! ObjectId_hex proposalId) as [p|];
    [|exists 404%Z; split; [done | set_solver]].
  destruct p as [t d c for_ against vs expires st].
  cbn [fmap option_fmap option_map]. unfold voteFinish.
  rewrite bind_run, Date_now_run.
  cbn beta iota.
  case_bool_decide.
  - rewrite bind_run. case_bool_decide.
    + match goal with
      | |- context [DaoProposal_save ?doc ?w'] =>
          destruct (DaoProposal_save_cases doc w') as [[w'' ->] | (e & w'' & ->)]
      end.
      * exists 400%Z. split; [done | set_solver].
      * exists 500%Z. split; [done | set_solver].
    + exists 400%Z. split; [done | set_solver].
  - case_bool_decide; [exists 409%Z; split; [done | set_solver]|].
    case_bool_decide; rewrite bind_run;
      match goal with
      | |- context [DaoProposal_save ?doc ?w'] =>
          destruct (DaoProposal_save_cases doc w') as [[w'' ->] | (e & w'' & ->)]
      end;
      first [exists 200%Z; split; [done | set_solver]
            | exists 500%Z; split; [done | set_solver]].
Qed.

Lemma postProposals_status (heading text wallet : string) (w : World) :
  ∃ code, statusOf (postProposals heading text wallet w) = Some code
          ∧ code ∈ [201; 400; 500]%Z.
Proof.
  destruct (proposalAdmitted heading text wallet) eqn:Hadmitted.
  - rewrite postProposals_run by done. cbn zeta.
    destruct (DaoProposal_save _ _) as [[[]|e] w'']; [|destruct e].
    + exists 201%Z. split; [done | set_solver].
    + exists 400%Z. split; [done | set_solver].
    + exists 500%Z. split; [done | set_solver].
    + exists 500%Z. split; [done | set_solver].
  - destruct (postProposals_refused heading text wallet w Hadmitted) as [m ->].
    exists 400%Z. split; [done | set_solver].
Qed.

(** X20. No exception escapes a DAO handler: whatever the request, the
    clock and the collections, [/proposals] answers with status 201, 400 or
    500 and [/vote] with status 200, 400, 404, 409 or 500. *)
Theorem dao_routes_always_answer
    (heading text wallet proposalId voteType voterWallet : string) (w : World) :
  (∃ code, statusOf (postProposals heading text wallet w) = Some code
           ∧ code ∈ [201; 400; 500]%Z)
  ∧ (∃ code, statusOf (postVote proposalId voteType voterWallet w) = Some code
             ∧ code ∈ [200; 400; 404; 409; 500]%Z).
Proof. split; [apply postProposals_status | apply postVote_status]. Qed.

End DaoFurther.

Lemma proposal_is_created_open_for_seven_days_witness :
  let after := @postProposals sampleExternals "  Fund the park "
                 "Spend the treasury surplus on the park." walletW1 beforeProposals in
  answer after
  = Some (mkResponse 201 (JMessageProposal
      [Lit "DAO proposal successfully created and saved!"] sampleId parkProposal))
  ∧ daoProposals after.2 = <[sampleId := parkProposal]> ∅.
Proof.
  apply (@proposal_is_created_open_for_seven_days sampleExternals "  Fund the park "
           "Spend the treasury surplus on the park." walletW1 beforeProposals).
  - reflexivity.
  - vm_compute. lia.
  - vm_compute. lia.
  - reflexivity.
  - cbn. lia.
  - reflexivity.
Defined.

Lemma proposal_with_short_title_is_refused_witness :
  let after := @postProposals sampleExternals "Park"
                 "Spend the treasury surplus on the park." walletW1 beforeProposals in
  daoProposals after.2 = ∅
  ∧ ∃ others,
      answer after
      = Some (mkResponse 400 (JMessageErrors
          [Lit "Validation failed for proposal data."]
          ([Lit "Proposal title must be at least 5 characters long."] :: others))).
Proof.
  apply (@proposal_with_short_title_is_refused sampleExternals "Park"
           "Spend the treasury surplus on the park." walletW1 beforeProposals).
  - reflexivity.
  - vm_compute. lia.
Defined.

Lemma dao_routes_keep_to_their_collection_witness :
  daoProposals (@postProposals sampleExternals "Plant the trees"
                  "Spend what is left of the surplus on trees." walletW2
                  (atTime day proposalCreated)).2 !! sampleId
  = Some parkProposal.
Proof.
  apply (proj2 (proj2 (@dao_routes_keep_to_their_collection sampleExternals
           "Plant the trees" "Spend what is left of the surplus on trees." walletW2
           sampleId "for" walletW1 (atTime day proposalCreated)))).
  vm_compute. reflexivity.
Defined.

Lemma accepted_vote_counts_once_witness :
  let voted := mkDaoProposal "Fund the park" "Spend the treasury surplus on the park."
                 walletW1 0 1 [walletW2] (7 * day) active in
  let after := @postVote sampleExternals sampleId "against" walletW2
                 (atTime day proposalCreated) in
  answer after
  = Some (mkResponse 200 (JMessageProposal
      [Lit "Your vote has been successfully cast!"] sampleId voted))
  ∧ daoProposals after.2
    = <[sampleId := voted]> (daoProposals (atTime day proposalCreated)).
Proof.
  apply (@accepted_vote_counts_once sampleExternals sampleId "against" walletW2
           (atTime day proposalCreated) parkProposal).
  - reflexivity.
  - vm_compute. reflexivity.
  - repeat split; vm_compute; lia || reflexivity || discriminate.
  - reflexivity.
  - apply not_elem_of_nil.
  - vm_compute. reflexivity.
  - vm_compute. reflexivity.
Defined.

Lemma vote_refusals_witness :
  (∃ m, @postVote sampleExternals sampleId "abstain" walletW2 proposalCreated
        = (Returned (mkResponse 400 (JMessage m)), proposalCreated))
  ∧ @postVote sampleExternals sampleId "for" walletW2 beforeProposals
    = (Returned (mkResponse 404 (JMessage
         [Lit "DAO Proposal not found with the provided ID."])), beforeProposals).
Proof.
  split.
  - apply (proj1 (@vote_refusals sampleExternals sampleId "abstain" walletW2
                    proposalCreated)).
    intros Hlisted. apply (bool_decide_eq_true_2 _) in Hlisted.
    vm_compute in Hlisted. discriminate Hlisted.
  - apply (proj2 (@vote_refusals sampleExternals sampleId "for" walletW2
                    beforeProposals)); reflexivity.
Defined.

(** The id of a request is cast before it is looked up: the upper-case
    spelling of a stored id finds the proposal, and the vote counts. *)
Example vote_with_another_spelling_of_the_id :
  let after := @postVote sampleExternals "65A1B2C3D4E5F60718293A4B" "for" walletW2
                 (atTime day proposalCreated) in
  statusOf after = Some 200%Z
  ∧ daoProposals after.2 !! sampleId = Some (withVote true walletW2 parkProposal).
Proof. split; vm_compute; reflexivity. Qed.

Lemma votes_only_accumulate_witness :
  ∃ q', daoProposals (@postVote sampleExternals sampleId "for" walletW1
                        (atTime day proposalCreated)).2 !! sampleId = Some q'
      ∧ title q' = title parkProposal ∧ description q' = description parkProposal
      ∧ creatorWallet q' = creatorWallet parkProposal
      ∧ expiresAt q' = expiresAt parkProposal
      ∧ (votesFor parkProposal ≤ votesFor q' ≤ votesFor parkProposal + 1)%Z
      ∧ (votesAgainst parkProposal ≤ votesAgainst q' ≤ votesAgainst parkProposal + 1)%Z
      ∧ (voters q' = voters parkProposal ∨ voters q' = voters parkProposal ++ [walletW1]).
Proof.
  apply (@votes_only_accumulate sampleExternals sampleId "for" walletW1 sampleId
           (atTime day proposalCreated) parkProposal).
  vm_compute. reflexivity.
Defined.

Lemma voted_wallet_is_never_counted_again_witness :
  let voted := withVote true walletW1 parkProposal in
  ∃ p', daoProposals (@postVote sampleExternals sampleId "against" walletW1
                        (atTime (2 * day) votedOnce)).2 !! sampleId = Some p'
      ∧ votesFor p' = votesFor voted ∧ votesAgainst p' = votesAgainst voted
      ∧ voters p' = voters voted.
Proof.
  apply (@voted_wallet_is_never_counted_again sampleExternals sampleId "against" walletW1
           (atTime (2 * day) votedOnce) (withVote true walletW1 parkProposal)).
  - vm_compute. reflexivity.
  - apply list_elem_of_here.
Defined.

Lemma expired_proposal_keeps_its_votes_witness :
  let voted := withVote true walletW1 parkProposal in
  ∃ q', daoProposals (@postVote sampleExternals sampleId "against" walletW2
                        (atTime (8 * day) votedOnce)).2 !! sampleId = Some q'
      ∧ votesFor q' = votesFor voted ∧ votesAgainst q' = votesAgainst voted
      ∧ voters q' = voters voted.
Proof.
  apply (@expired_proposal_keeps_its_votes sampleExternals sampleId "against" walletW2
           sampleId (atTime (8 * day) votedOnce) (withVote true walletW1 parkProposal)).
  - vm_compute. reflexivity.
  - vm_compute. discriminate.
Defined.

Lemma completed_stays_completed_witness :
  let w := setDaoProposals {[sampleId := closed parkProposal]} (atTime day beforeProposals) in
  ∃ q', daoProposals (@postVote sampleExternals sampleId "for" walletW2 w).2 !! sampleId
        = Some q'
      ∧ status q' = completed.
Proof.
  apply (@completed_stays_completed sampleExternals sampleId "for" walletW2 sampleId
           (setDaoProposals {[sampleId := closed parkProposal]} (atTime day beforeProposals))
           (closed parkProposal)).
  - vm_compute. reflexivity.
  - reflexivity.
Defined.

(** ** The page against the backend *)

Lemma length_append (s1 s2 : string) :
  String.length (s1 +:+ s2) = (String.length s1 + String.length s2)%nat.
Proof.
  induction s1 as [|a s1 IH]; [done|].
  change (String a s1 +:+ s2) with (String a (s1 +:+ s2)). cbn. by rewrite IH.
Qed.

Lemma length_takeChars (n : nat) (s : string) :
  String.length (takeChars n s) = (n `min` String.length s)%nat.
Proof.
  revert s. induction n as [|n IH]; intros [|a s]; cbn; try done. by rewrite IH.
Qed.

Lemma length_dropChars (n : nat) (s : string) :
  String.length (dropChars n s) = (String.length s - n)%nat.
Proof.
  revert s. induction n as [|n IH]; intros [|a s]; cbn; try done.
Qed.

Lemma takeChars_append (s1 s2 : string) :
  takeChars (String.length s1) (s1 +:+ s2) = s1.
Proof.
  induction s1 as [|a s1 IH]; [by destruct s2|].
  change (String a s1 +:+ s2) with (String a (s1 +:+ s2)). cbn. by rewrite IH.
Qed.

Lemma dropChars_append (s1 s2 : string) :
  dropChars (String.length s1) (s1 +:+ s2) = s2.
Proof.
  induction s1 as [|a s1 IH]; [by destruct s2|].
  change (String a s1 +:+ s2) with (String a (s1 +:+ s2)). exact IH.
Qed.

Lemma dropChars_add (n m : nat) (s : string) :
  dropChars (n + m) s = dropChars m (dropChars n s).
Proof.
  revert s. induction n as [|n IH]; intros s; [done|].
  destruct s as [|a s]; [by destruct m | apply IH].
Qed.

(** X21. What the page shows of an address. An address of at least six
    characters, as every address of the Solana format is, is shown in
    exactly thirteen characters: its first six, three dots, and its last
    four. *)
Theorem address_is_shown_in_thirteen_characters (address : string) :
  (6 ≤ String.length address)%nat →
  let shown := Frontend.truncateAddress address in
  String.length shown = 13%nat
  ∧ takeChars 6 shown = takeChars 6 address
  ∧ dropChars 9 shown = dropChars (String.length address - 4) address
  ∧ takeChars 3 (dropChars 6 shown) = "...".
Proof.
  intros Hlong shown. unfold shown, Frontend.truncateAddress.
  assert (truthy address = true) as -> by (destruct address; [cbn in Hlong; lia | done]).
  cbn [negb]. remember (String.length address - 4)%nat as k eqn:Hk.
  pose proof (length_takeChars 6 address) as Hhead.
  pose proof (length_dropChars k address) as Htail.
  rewrite Nat.min_l in Hhead by done.
  set (head := takeChars 6 address) in *. set (tail := dropChars k address) in *.
  assert (dropChars 6 (head +:+ "..." +:+ tail) = "..." +:+ tail) as Hrest
    by (rewrite <- Hhead at 1; apply dropChars_append).
  split; [|split; [|split]].
  - rewrite !length_append, Hhead, Htail. change (String.length "...") with 3%nat. lia.
  - rewrite <- Hhead at 1. apply takeChars_append.
  - rewrite (dropChars_add 6 3), Hrest. apply (dropChars_append "..." tail).
  - rewrite Hrest. apply (takeChars_append "..." tail).
Qed.

Lemma address_is_shown_in_thirteen_characters_witness :
  (6 ≤ String.length walletW1)%nat
  ∧ String.length (Frontend.truncateAddress walletW1) = 13%nat
  ∧ takeChars 6 (Frontend.truncateAddress walletW1) = takeChars 6 walletW1
  ∧ dropChars 9 (Frontend.truncateAddress walletW1)
    = dropChars (String.length walletW1 - 4) walletW1
  ∧ takeChars 3 (dropChars 6 (Frontend.truncateAddress walletW1)) = "...".
Proof.
  assert (6 ≤ String.length walletW1)%nat as Hlong by (vm_compute; lia).
  split; [exact Hlong|].
  exact (address_is_shown_in_thirteen_characters walletW1 Hlong).
Defined.




